(** * Smart Acquisition dashboard: drill-down navigator and cross-chart filter

    A shallow embedding of the two pieces of state-transition logic of the
    dashboard:

    - the supplier-network navigation of [modules/smart_performance.py]
      (session keys [network_view_tier], [network_selected_tier1],
      [network_selected_tier2], the Back / Reset / drill-down buttons and the
      click handler on the network chart);
    - the cross-chart filter of [utils/chart_filtering.py]
      ([apply_cross_chart_filter], [clear_all_filters],
      [get_filtered_summary_stats]).

    Python dictionaries are insertion ordered and the views list their keys in
    that order, so a dictionary is an association list.  Python exceptions are
    an explicit [result] type.  Numbers (Python [int] and [float], which
    compare by numeric value) are exact rationals; the rounding of IEEE
    doubles is outside the model, and so is the wrap-around of a pandas
    sum over a 64-bit integer column: a sum is modelled exactly, which is
    what pandas computes as long as it fits in a signed 64-bit integer. *)

From Stdlib Require Import List String ZArith QArith Bool Lia.
Import ListNotations.

Local Open Scope string_scope.
Local Open Scope Z_scope.

(** ** Python runtime: exceptions and dictionaries *)

Inductive exn : Type :=
| KeyError (key : string)
| TypeError.

Inductive result (A : Type) : Type :=
| Ok (a : A)
| Raise (e : exn).

Arguments Ok {A} a.
Arguments Raise {A} e.

Module PyDict.
Section Dict.
Context {V : Type}.

(** A dict literal, in definition order. *)
Definition dict : Type := list (string * V).

(** [list(d.keys())] *)
Definition keys (d : dict) : list string := map fst d.

(** [list(d.values())] *)
Definition values (d : dict) : list V := map snd d.

(** [k in names] for a list of strings *)
Definition mem (k : string) (names : list string) : bool :=
  existsb (String.eqb k) names.

(** [k in d] *)
Definition contains (k : string) (d : dict) : bool := mem k (keys d).

(** [d.get(k)]: [None] when the key is absent. *)
Fixpoint get (d : dict) (k : string) : option V :=
  match d with
  | [] => None
  | (k', v) :: rest => if String.eqb k k' then Some v else get rest k
  end.

(** [d[k]]: raises [KeyError] when the key is absent. *)
Definition getitem (d : dict) (k : string) : result V :=
  match get d k with
  | Some v => Ok v
  | None => Raise (KeyError k)
  end.
End Dict.
Arguments dict V : clear implicits.
End PyDict.

(** ** Supplier-network navigation ([modules/smart_performance.py]) *)

Module Navigator.
Import PyDict.

(** One supplier entry: [{'risk': ..., 'value': ..., 'issues': ...}]. *)
Record supplier_data : Type := mk_supplier {
  risk : string;
  value : Q;
  issues : Z
}.

(** A tier-1 entry also carries its ['tier2'] dictionary. *)
Record tier1_data : Type := mk_tier1 {
  t1_risk : string;
  t1_value : Q;
  t1_issues : Z;
  tier2 : dict supplier_data
}.

Definition t1_supplier (d : tier1_data) : supplier_data :=
  mk_supplier (t1_risk d) (t1_value d) (t1_issues d).

(** The three session keys the navigation reads and writes. *)
Record nav_state : Type := mk_nav {
  network_view_tier : Z;
  network_selected_tier1 : option string;
  network_selected_tier2 : option string
}.

(** Session initialisation (the three [if ... not in st.session_state]). *)
Definition initial_state : nav_state := mk_nav 1 None None.

(** Truth value of a session entry that is [None] or a string. *)
Definition truthy (o : option string) : bool :=
  match o with
  | None => false
  | Some s => negb (String.eqb s "")
  end.

(** What one run of the page script does besides updating the session:
    [st.rerun()], the [st.info] with the detailed analysis of a tier-2
    supplier that has no tier-3 data, or nothing. *)
Inductive outcome : Type :=
| Rerun
| InfoDetail (supplier : string) (risk : string) (value : Q)
| NoAction.

(** The user interactions of the network section. *)
Inductive event : Type :=
| BackButton
| ResetButton
| Tier1Button (supplier : string)
| Tier2Button (supplier : string)
| NodeClick (clicked_supplier : string).

Section Hierarchy.
Variable supplier_hierarchy : dict tier1_data.
Variable tier3_data : dict (dict supplier_data).

(** "Back to Previous Tier": the button is only rendered above tier 1. *)
Definition back_button (s : nav_state) : nav_state * outcome :=
  if network_view_tier s >? 1 then
    if network_view_tier s =? 3 then
      (mk_nav 2 (network_selected_tier1 s) None, Rerun)
    else if network_view_tier s =? 2 then
      (mk_nav 1 None (network_selected_tier2 s), Rerun)
    else (s, Rerun)
  else (s, NoAction).

(** "Reset to Tier 1". *)
Definition reset_button (s : nav_state) : nav_state * outcome :=
  (mk_nav 1 None None, Rerun).

(** Tier-1 drill-down buttons: one per key of the hierarchy, rendered in
    the tier-1 view only. *)
Definition tier1_button (s : nav_state) (supplier : string)
  : nav_state * outcome :=
  if (network_view_tier s =? 1) && mem supplier (keys supplier_hierarchy)
  then (mk_nav 2 (Some supplier) (network_selected_tier2 s), Rerun)
  else (s, NoAction).

(** [tier3_available = [name for name in tier2_names if name in tier3_data]] *)
Definition tier3_available (tier2_suppliers : dict supplier_data)
  : list string :=
  filter (fun name => contains name tier3_data) (keys tier2_suppliers).

(** Tier-2 drill-down buttons: one per tier-2 supplier that has tier-3
    data, rendered in the tier-2 view only. *)
Definition tier2_button (s : nav_state) (supplier : string)
  : result (nav_state * outcome) :=
  if (network_view_tier s =? 2) && truthy (network_selected_tier1 s) then
    match network_selected_tier1 s with
    | None => Ok (s, NoAction)
    | Some tier1_supplier =>
        match getitem supplier_hierarchy tier1_supplier with
        | Raise e => Raise e
        | Ok t1 =>
            if mem supplier (tier3_available (tier2 t1))
            then Ok (mk_nav 3 (network_selected_tier1 s) (Some supplier),
                     Rerun)
            else Ok (s, NoAction)
        end
    end
  else Ok (s, NoAction).

(** Direct click on a node of the network chart. *)
Definition node_click (s : nav_state) (clicked_supplier : string)
  : result (nav_state * outcome) :=
  if (network_view_tier s =? 1)
     && contains clicked_supplier supplier_hierarchy
  then Ok (mk_nav 2 (Some clicked_supplier) (network_selected_tier2 s),
           Rerun)
  else if (network_view_tier s =? 2) && truthy (network_selected_tier1 s)
  then
    match network_selected_tier1 s with
    | None => Ok (s, NoAction)
    | Some tier1_supplier =>
        match getitem supplier_hierarchy tier1_supplier with
        | Raise e => Raise e
        | Ok t1 =>
            let tier2_suppliers := tier2 t1 in
            match get tier2_suppliers clicked_supplier with
            | Some d =>
                if contains clicked_supplier tier3_data
                then Ok (mk_nav 3 (network_selected_tier1 s)
                                (Some clicked_supplier), Rerun)
                else Ok (s, InfoDetail clicked_supplier (risk d) (value d))
            | None => Ok (s, NoAction)
            end
        end
    end
  else Ok (s, NoAction).

Definition handle (s : nav_state) (e : event)
  : result (nav_state * outcome) :=
  match e with
  | BackButton => Ok (back_button s)
  | ResetButton => Ok (reset_button s)
  | Tier1Button supplier => Ok (tier1_button s supplier)
  | Tier2Button supplier => tier2_button s supplier
  | NodeClick clicked_supplier => node_click s clicked_supplier
  end.

(** The navigation transitions by the names the specification gives them. *)
Definition drillDown (nodeId : string) (s : nav_state) :=
  handle s (NodeClick nodeId).
Definition goBack (s : nav_state) := handle s BackButton.
Definition reset (s : nav_state) := handle s ResetButton.

(** The suppliers shown for the current tier, in definition order. *)
Definition view (s : nav_state) : result (dict supplier_data) :=
  if network_view_tier s =? 1 then
    Ok (map (fun kv => (fst kv, t1_supplier (snd kv))) supplier_hierarchy)
  else if (network_view_tier s =? 2) && truthy (network_selected_tier1 s)
  then
    match network_selected_tier1 s with
    | None => Ok []
    | Some tier1_supplier =>
        match getitem supplier_hierarchy tier1_supplier with
        | Raise e => Raise e
        | Ok t1 => Ok (tier2 t1)
        end
    end
  else if (network_view_tier s =? 3) && truthy (network_selected_tier2 s)
  then
    match network_selected_tier2 s with
    | None => Ok []
    | Some tier2_supplier =>
        match get tier3_data tier2_supplier with
        | Some tier3_suppliers => Ok tier3_suppliers
        | None => Ok []
        end
    end
  else Ok [].

(** Central node of the tier-3 view: when the selected tier-2 supplier has
    tier-3 suppliers, its own entry is looked up through the selected
    tier-1 supplier, [supplier_hierarchy[tier1_supplier]['tier2'][tier2_supplier]].
    [Ok None] stands for the runs that do not reach the lookup. *)
Definition tier3_central_node (s : nav_state)
  : result (option supplier_data) :=
  if network_view_tier s =? 1 then Ok None
  else if (network_view_tier s =? 2) && truthy (network_selected_tier1 s)
  then Ok None
  else if (network_view_tier s =? 3) && truthy (network_selected_tier2 s)
  then
    match network_selected_tier2 s with
    | None => Ok None
    | Some tier2_supplier =>
        match get tier3_data tier2_supplier with
        | None | Some [] => Ok None
        | Some (_ :: _) =>
            match network_selected_tier1 s with
            | None => Raise (KeyError "None")
            | Some tier1_supplier =>
                match getitem supplier_hierarchy tier1_supplier with
                | Raise e => Raise e
                | Ok t1 =>
                    match getitem (tier2 t1) tier2_supplier with
                    | Raise e => Raise e
                    | Ok tier2_data => Ok (Some tier2_data)
                    end
                end
            end
        end
    end
  else Ok None.


(** States the session can be in: the initial one and whatever an
    interaction leads to. *)
Inductive reachable : nav_state -> Prop :=
| reachable_init : reachable initial_state
| reachable_step s e s' o :
    reachable s -> handle s e = Ok (s', o) -> reachable s'.

End Hierarchy.

(** [sum(1 for data in suppliers.values() if data['risk'] in ['High', 'Critical'])] *)
Definition high_risk_count (suppliers : dict supplier_data) : Z :=
  fold_right Z.add 0
    (map (fun _ => 1)
       (filter (fun data => mem (risk data) ["High"; "Critical"])
               (values suppliers))).

(** [sum(data['issues'] for data in suppliers.values())] *)
Definition issue_total (suppliers : dict supplier_data) : Z :=
  fold_right Z.add 0 (map issues (values suppliers)).

(** The hierarchy literal of the page, in definition order. *)
Definition supplier_hierarchy : dict tier1_data :=
  [
   ("MACE Group",
    mk_tier1 "Low" 421.5 0
      [("Thames Valley Infrastructure", mk_supplier "Low" 156.2 0);
       ("London Pipeline Alliance", mk_supplier "Low" 127.3 0);
       ("Water Quality Solutions", mk_supplier "Low" 138.0 0)]);
   ("Balfour Beatty Water",
    mk_tier1 "Critical" 163.0 5
      [("Thames Drainage Specialists", mk_supplier "Critical" 89.5 3);
       ("Environmental Compliance", mk_supplier "High" 73.5 2);
       ("Network Operations", mk_supplier "Medium" 0 0)]);
   ("Costain Water Alliance",
    mk_tier1 "Medium" 324.3 2
      [("TTT Integration Works", mk_supplier "Medium" 289.7 1);
       ("Biodiversity Enhancement", mk_supplier "Low" 34.6 0);
       ("Strategic Projects", mk_supplier "Medium" 0 1)]);
   ("Jacobs Engineering",
    mk_tier1 "Low" 137.4 0
      [("Smart Network Technologies", mk_supplier "Low" 95.4 0);
       ("Customer Excellence", mk_supplier "Low" 42.0 0);
       ("Innovation Delivery", mk_supplier "Low" 0 0)]);
   ("Atkins (SNC-Lavalin)",
    mk_tier1 "Low" 68.9 0
      [("Water Quality Assurance", mk_supplier "Low" 68.9 0);
       ("Regulatory Compliance", mk_supplier "Low" 0 0);
       ("Technical Advisory", mk_supplier "Low" 0 0)])
  ].

(** The tier-3 literal of the page; none of its keys names a tier-2
    supplier of [supplier_hierarchy]. *)
Definition tier3_data : dict (dict supplier_data) :=
  [
   ("Pipeline Solutions Ltd",
      [("Advanced Pipe Technologies", mk_supplier "Low" 315 0);
       ("Trenchless Solutions UK", mk_supplier "Low" 320 0);
       ("Water Main Specialists", mk_supplier "Low" 315 0)]);
   ("Infrastructure Services",
      [("Build Pro Services", mk_supplier "Medium" 195 1);
       ("Infrastructure Plus", mk_supplier "Low" 190 0);
       ("Service Contractors", mk_supplier "Medium" 195 1)]);
   ("Construction Support",
      [("Support Systems Ltd", mk_supplier "Low" 215 0);
       ("Construction Aids", mk_supplier "Low" 220 0);
       ("Build Support Co", mk_supplier "Low" 215 0)]);
   ("Civil Engineering",
      [("Engineering Sub 1", mk_supplier "High" 135 2);
       ("Engineering Sub 2", mk_supplier "Medium" 130 1);
       ("Engineering Sub 3", mk_supplier "High" 135 2)]);
   ("Project Services",
      [("Project Management Co", mk_supplier "Medium" 140 1);
       ("Service Delivery Ltd", mk_supplier "Low" 140 0);
       ("Project Support", mk_supplier "Medium" 140 1)]);
   ("Infrastructure Delivery",
      [("Delivery Systems", mk_supplier "Low" 125 0);
       ("Infrastructure Co", mk_supplier "Low" 130 0);
       ("Delivery Partners", mk_supplier "Low" 125 0)]);
   ("Water Infrastructure",
      [("Water Systems Ltd", mk_supplier "Low" 105 0);
       ("Hydro Solutions", mk_supplier "Low" 110 0);
       ("Infrastructure Water", mk_supplier "Low" 105 0)]);
   ("Construction Management",
      [("Management Systems", mk_supplier "Low" 105 0);
       ("Construction Control", mk_supplier "Low" 105 0);
       ("Build Management", mk_supplier "Low" 105 0)]);
   ("Engineering Services",
      [("Engineering Plus", mk_supplier "Medium" 105 1);
       ("Service Engineers", mk_supplier "Low" 105 0);
       ("Technical Services", mk_supplier "Medium" 105 1)]);
   ("Nordic Construction",
      [("Supplier 2.1", mk_supplier "High" 95 2);
       ("Supplier 2.2", mk_supplier "Medium" 90 1);
       ("Supplier 2.3", mk_supplier "Critical" 95 3)]);
   ("Civil Works",
      [("Civil Contractors", mk_supplier "Medium" 85 1);
       ("Works Management", mk_supplier "Low" 90 0);
       ("Civil Solutions", mk_supplier "Medium" 85 1)]);
   ("Project Delivery",
      [("Delivery Experts", mk_supplier "Low" 85 0);
       ("Project Solutions", mk_supplier "Low" 90 0);
       ("Delivery Systems", mk_supplier "Low" 85 0)]);
   ("Infrastructure Solutions",
      [("Solution Providers", mk_supplier "Medium" 65 1);
       ("Infrastructure Tech", mk_supplier "Low" 70 0);
       ("Solutions Ltd", mk_supplier "Medium" 65 1)]);
   ("Construction Services",
      [("Service Providers", mk_supplier "Medium" 65 1);
       ("Construction Plus", mk_supplier "Low" 70 0);
       ("Building Services", mk_supplier "Medium" 65 1)]);
   ("Engineering Partners",
      [("Partner Engineers", mk_supplier "Low" 65 0);
       ("Engineering Alliance", mk_supplier "Low" 70 0);
       ("Technical Partners", mk_supplier "Low" 65 0)])
  ].

(** The "Current Path" line: "Suppliers" followed by the selections that
    are set. *)
Definition path_parts (s : nav_state) : list string :=
  ["Suppliers"]
  ++ (match network_selected_tier1 s with
      | Some k => if truthy (Some k) then [k] else []
      | None => []
      end)
  ++ (match network_selected_tier2 s with
      | Some k => if truthy (Some k) then [k] else []
      | None => []
      end).

Definition current_path (s : nav_state) : string :=
  "**Current Path:** " ++ String.concat " > " (path_parts s).

(** [sum(1 for data in suppliers.values() if data['risk'] == 'Critical')] *)
Definition critical_count (suppliers : dict supplier_data) : Z :=
  fold_right Z.add 0
    (map (fun _ => 1)
       (filter (fun data => String.eqb (risk data) "Critical")
               (values suppliers))).

(** [sum(1 for data in suppliers.values() if data['risk'] == 'High')] *)
Definition high_count (suppliers : dict supplier_data) : Z :=
  fold_right Z.add 0
    (map (fun _ => 1)
       (filter (fun data => String.eqb (risk data) "High")
               (values suppliers))).

(** The "Suppliers with Issues" panel: the entries with [data['issues'] > 0],
    in definition order (each kept with its name and data; the panel shows
    the name, the issues, the risk and the value). *)
Definition suppliers_with_issues (suppliers : dict supplier_data)
  : dict supplier_data :=
  filter (fun kv => issues (snd kv) >? 0) suppliers.

(** The invariant of the navigation state. *)
Definition nav_invariant (s : nav_state) : Prop :=
  (network_view_tier s = 1 ->
     network_selected_tier1 s = None /\ network_selected_tier2 s = None)
  /\ (network_view_tier s = 2 ->
     network_selected_tier1 s <> None /\ network_selected_tier2 s = None)
  /\ (network_view_tier s = 3 ->
     network_selected_tier1 s <> None /\ network_selected_tier2 s <> None).

End Navigator.

(** ** Cross-chart filter ([utils/chart_filtering.py]) *)

Module ChartFilter.
Import PyDict.

(** A cell of a table, or a filter value: [None], a missing number, a
    string or a number. *)
Inductive scalar : Type :=
| PyNone
| NaN
| Str (s : string)
| Num (q : Q).

(** [bool(v)]: [None], the empty string and zero are false. *)
Definition truthy (v : scalar) : bool :=
  match v with
  | PyNone => false
  | NaN => true
  | Str s => negb (String.eqb s "")
  | Num q => negb (Qeq_bool q 0)
  end.

(** [bool(name)] for a filter type that is [None] or a string. *)
Definition truthy_name (o : option string) : bool :=
  match o with
  | None => false
  | Some s => negb (String.eqb s "")
  end.

(** One entry of [series == value]: strings and numbers compare by value,
    a missing cell equals nothing. *)
Definition cell_eq (c v : scalar) : bool :=
  match c, v with
  | Str a, Str b => String.eqb a b
  | Num a, Num b => Qeq_bool a b
  | _, _ => false
  end.

(** A row keeps its index label through every selection. *)
Record row : Type := mk_row {
  label : Z;
  cells : list scalar
}.

Record DataFrame : Type := mk_df {
  columns : list string;
  rows : list row
}.

(** [len(df)] *)
Definition len (df : DataFrame) : Z := Z.of_nat (List.length (rows df)).

(** Position of a column name in [df.columns]. *)
Fixpoint column_pos (name : string) (cols : list string) : option nat :=
  match cols with
  | [] => None
  | c :: rest =>
      if String.eqb name c then Some O
      else option_map S (column_pos name rest)
  end.

(** The cell of a row in the column at position [i]. *)
Definition cell (r : row) (i : nat) : scalar := nth i (cells r) NaN.

(** [df[name]] *)
Definition series (df : DataFrame) (name : string) : result (list scalar) :=
  match column_pos name (columns df) with
  | Some i => Ok (map (fun r => cell r i) (rows df))
  | None => Raise (KeyError name)
  end.

(** [df[df[name] == value]]: the rows whose mask entry is true, in order,
    under the same columns. *)
Definition select_eq (df : DataFrame) (name : string) (value : scalar)
  : result DataFrame :=
  match column_pos name (columns df) with
  | Some i =>
      Ok (mk_df (columns df)
                (filter (fun r => cell_eq (cell r i) value) (rows df)))
  | None => Raise (KeyError name)
  end.

(** The entries of [st.session_state] the filter uses. *)
Record session : Type := mk_session {
  filter_active : bool;
  filter_type : option string;
  filter_value : scalar;
  selected_contracts : list string;
  selected_suppliers : list string;
  selected_categories : list string
}.

Definition apply_cross_chart_filter (st : session) (df : DataFrame)
    (filter_type : option string) (filter_value : scalar)
  : result DataFrame :=
  if negb (filter_active st) || negb (truthy_name filter_type)
     || negb (truthy filter_value)
  then Ok df
  else
    let filtered_df := df in
    match filter_type with
    | None => Ok filtered_df
    | Some ft =>
        if String.eqb ft "rag_status" && mem "rag_status" (columns df)
        then select_eq filtered_df "rag_status" filter_value
        else if String.eqb ft "procurement_category"
                && mem "procurement_category" (columns df)
        then select_eq filtered_df "procurement_category" filter_value
        else if String.eqb ft "supplier" && mem "supplier" (columns df)
        then select_eq filtered_df "supplier" filter_value
        else if String.eqb ft "risk_level" && mem "risk_level" (columns df)
        then select_eq filtered_df "risk_level" filter_value
        else if String.eqb ft "current_stage"
                && mem "current_stage" (columns df)
        then select_eq filtered_df "current_stage" filter_value
        else if String.eqb ft "team_member" && mem "team_member" (columns df)
        then select_eq filtered_df "team_member" filter_value
        else if String.eqb ft "market_segment"
                && mem "market_segment" (columns df)
        then select_eq filtered_df "market_segment" filter_value
        else Ok filtered_df
    end.

(** The filter types [apply_cross_chart_filter] has a branch for. *)
Definition recognized_dimensions : list string :=
  ["rag_status"; "procurement_category"; "supplier"; "risk_level";
   "current_stage"; "team_member"; "market_segment"].

(** The "Apply Filter" button of [create_filterable_chart]: rendered when
    the chart has a filter column that is a column of the table; it sets the
    filter unless the selected entry is 'All'. *)
Definition apply_filter_button (st : session) (df : DataFrame)
    (filter_column : option string) (selected_value : scalar) : session :=
  match filter_column with
  | Some column =>
      if truthy_name filter_column && mem column (columns df)
      then
        if cell_eq selected_value (Str "All") then st
        else mk_session true (Some column) selected_value
               (selected_contracts st) (selected_suppliers st)
               (selected_categories st)
      else st
  | None => st
  end.

Definition clear_all_filters (st : session) : session :=
  mk_session false None PyNone [] [] [].

(** [series.sum()]: missing cells are skipped; a text column does not add
    up to a number, and the division that follows raises.  The sum is
    exact: it is the sum pandas returns while that sum fits in a signed
    64-bit integer; beyond that an integer column wraps around in pandas,
    which this model does not follow. *)
Fixpoint series_sum (col : list scalar) : result Q :=
  match col with
  | [] => Ok 0%Q
  | c :: rest =>
      match series_sum rest with
      | Raise e => Raise e
      | Ok total =>
          match c with
          | Num q => Ok (q + total)%Q
          | PyNone | NaN => Ok total
          | Str _ => Raise TypeError
          end
      end
  end.

(** [df['total_value_gbp'].sum() / 1_000_000 if 'total_value_gbp' in df.columns else 0] *)
Definition total_value_m (df : DataFrame) : result Q :=
  if mem "total_value_gbp" (columns df) then
    match series df "total_value_gbp" with
    | Raise e => Raise e
    | Ok col =>
        match series_sum col with
        | Raise e => Raise e
        | Ok total => Ok (total / 1000000)%Q
        end
    end
  else Ok 0%Q.

(** The dictionary [get_filtered_summary_stats] returns. *)
Record stats : Type := mk_stats {
  contracts : Z;
  value_m : Q;
  filtered : bool
}.

Definition get_filtered_summary_stats (st : session) (df : DataFrame)
  : result stats :=
  if filter_active st then
    match apply_cross_chart_filter st df (filter_type st) (filter_value st)
    with
    | Raise e => Raise e
    | Ok filtered_df =>
        match total_value_m filtered_df with
        | Raise e => Raise e
        | Ok total_value => Ok (mk_stats (len filtered_df) total_value true)
        end
    end
  else
    match total_value_m df with
    | Raise e => Raise e
    | Ok total_value => Ok (mk_stats (len df) total_value false)
    end.

(** [row[d] == v] for a row of [df]. *)
Definition row_matches (df : DataFrame) (d : string) (v : scalar) (r : row)
  : bool :=
  match column_pos d (columns df) with
  | Some i => cell_eq (cell r i) v
  | None => false
  end.

(** The two totals of a summary: the row count and the value. *)
Definition totals (r : result stats) : result (Z * Q) :=
  match r with
  | Ok s => Ok (contracts s, value_m s)
  | Raise e => Raise e
  end.

End ChartFilter.

(** ** Selection filters of the network tab ([utils/supply_chain_network.py])
    and of the project delivery tab ([modules/smart_sourcing.py]) *)

Module Selections.
Import PyDict ChartFilter.

(** [flt != 'All'] for the entry chosen in a select box. *)
Definition not_all (flt : scalar) : bool := negb (cell_eq flt (Str "All")).

(** [apply_network_filters] of [utils/supply_chain_network.py]. *)
Definition apply_network_filters (df_suppliers : DataFrame)
    (risk_filter performance_filter strategic_filter : scalar)
  : result DataFrame :=
  let filtered_df := df_suppliers in
  match
    (if not_all risk_filter
     then select_eq filtered_df "risk_category" risk_filter
     else Ok filtered_df)
  with
  | Raise e => Raise e
  | Ok filtered_df =>
      match
        (if not_all performance_filter
         then select_eq filtered_df "performance_category" performance_filter
         else Ok filtered_df)
      with
      | Raise e => Raise e
      | Ok filtered_df =>
          if not_all strategic_filter
          then select_eq filtered_df "strategic_importance" strategic_filter
          else Ok filtered_df
      end
  end.

(** The banner of [render_supply_chain_network_tab]: shown when
    [len(filtered_suppliers) < len(df_suppliers)]. *)
Definition shows_filter_banner (df_suppliers filtered_suppliers : DataFrame)
  : bool :=
  len filtered_suppliers <? len df_suppliers.

(** The four select boxes of [render_project_delivery_tab], applied one
    after the other to a copy of the table. *)
Definition apply_selectbox_filters (df : DataFrame)
    (rag_filter category_filter stage_filter risk_filter : scalar)
  : result DataFrame :=
  let filtered_df := df in
  match
    (if not_all rag_filter
     then select_eq filtered_df "rag_status" rag_filter
     else Ok filtered_df)
  with
  | Raise e => Raise e
  | Ok filtered_df =>
      match
        (if not_all category_filter
         then select_eq filtered_df "procurement_category" category_filter
         else Ok filtered_df)
      with
      | Raise e => Raise e
      | Ok filtered_df =>
          match
            (if not_all stage_filter
             then select_eq filtered_df "current_stage" stage_filter
             else Ok filtered_df)
          with
          | Raise e => Raise e
          | Ok filtered_df =>
              if not_all risk_filter
              then select_eq filtered_df "risk_level" risk_filter
              else Ok filtered_df
          end
      end
  end.

(** [sum([f != 'All' for f in [rag_filter, category_filter, stage_filter, risk_filter]])] *)
Definition filter_count
    (rag_filter category_filter stage_filter risk_filter : scalar) : Z :=
  fold_right Z.add 0
    (map (fun f => if not_all f then 1 else 0)
         [rag_filter; category_filter; stage_filter; risk_filter]).

(** [row[name]] for a row of a table with the given columns. *)
Definition row_getitem (cols : list string) (r : row) (name : string)
  : result scalar :=
  match column_pos name cols with
  | Some i => Ok (cell r i)
  | None => Raise (KeyError name)
  end.

(** [value in names] for a list of string literals. *)
Definition scalar_in (value : scalar) (names : list string) : bool :=
  match value with
  | Str s => mem s names
  | _ => false
  end.

(** [get_rag_status(row)] of [render_project_delivery_tab]; the risk level
    is only read for a row that is not at Contract or Award. *)
Definition get_rag_status (cols : list string) (r : row) : result string :=
  match row_getitem cols r "current_stage" with
  | Raise e => Raise e
  | Ok stage =>
      if scalar_in stage ["Contract"; "Award"] then Ok "Green"
      else
        match row_getitem cols r "risk_level" with
        | Raise e => Raise e
        | Ok risk_level =>
            if cell_eq risk_level (Str "High") then Ok "Red"
            else if scalar_in stage ["Evaluation"; "Tender Process"]
            then Ok "Amber"
            else Ok "Green"
        end
  end.

(** [df[df[name].isin(names)]] *)
Definition select_isin (df : DataFrame) (name : string)
    (names : list string) : result DataFrame :=
  match column_pos name (columns df) with
  | Some i =>
      Ok (mk_df (columns df)
                (filter (fun r => scalar_in (cell r i) names) (rows df)))
  | None => Raise (KeyError name)
  end.

(** The numerator of the "Contracts Delivered" metric, given the
    ['filtered'] entry of the summary. *)
Definition contracts_delivered (stats_filtered : bool) (df : DataFrame)
  : result Z :=
  match
    (if negb stats_filtered then Ok df
     else select_isin df "current_stage" ["Contract"; "Award"])
  with
  | Raise e => Raise e
  | Ok filtered_df =>
      match select_isin filtered_df "current_stage" ["Contract"; "Award"] with
      | Raise e => Raise e
      | Ok on_track => Ok (len on_track)
      end
  end.

End Selections.

(** * Properties *)

(** ** Dictionary facts *)

Module PyDictFacts.
Import PyDict.
Section Facts.
Context {V : Type}.
Implicit Types (d : dict V) (k : string).

Lemma contains_get d k :
  contains k d = true <-> exists v, get d k = Some v.
Proof.
  unfold contains, mem, keys.
  induction d as [|[k' v] rest IH]; simpl.
  - split; [discriminate | intros [v Hv]; discriminate].
  - destruct (String.eqb k k') eqn:E; simpl.
    + split; [intros _; exists v; reflexivity | reflexivity].
    + exact IH.
Qed.

Lemma contains_getitem d k :
  contains k d = true -> exists v, getitem d k = Ok v.
Proof.
  intros [v Hv]%contains_get. exists v. unfold getitem. now rewrite Hv.
Qed.

Lemma get_none_contains d k :
  get d k = None -> contains k d = false.
Proof.
  intros Hn. destruct (contains k d) eqn:E; [|reflexivity].
  apply contains_get in E as [v Hv]. congruence.
Qed.

Lemma mem_filter k (p : string -> bool) (names : list string) :
  mem k (filter p names) = mem k names && p k.
Proof.
  unfold mem.
  induction names as [|x rest IH]; simpl; [reflexivity|].
  destruct (p x) eqn:Px; simpl; rewrite IH;
    destruct (String.eqb k x) eqn:E; simpl; try reflexivity;
    apply String.eqb_eq in E; subst x; rewrite Px; simpl;
    [reflexivity | now rewrite andb_false_r].
Qed.
End Facts.
End PyDictFacts.

(** ** Navigation *)

Module NavigatorSpec.
Import PyDict PyDictFacts Navigator.

Section Generic.
Variable H : dict tier1_data.
Variable T3 : dict (dict supplier_data).

(** A selected tier-1 supplier is a key of the hierarchy, so the lookups
    of the tier-2 view cannot raise. *)
Definition known_selection (s : nav_state) : Prop :=
  forall k, network_selected_tier1 s = Some k -> contains k H = true.

Definition consistent (s : nav_state) : Prop :=
  nav_invariant s /\ known_selection s.

Lemma initial_consistent : consistent initial_state.
Proof.
  split.
  - repeat split; simpl; intros; try reflexivity; discriminate.
  - intros k Hk. discriminate.
Qed.

Ltac tiers :=
  repeat match goal with
  | E : (_ =? _) = true |- _ => apply Z.eqb_eq in E
  | E : (_ =? _) = false |- _ => apply Z.eqb_neq in E
  | E : (_ >? _) = true |- _ => rewrite Z.gtb_ltb in E; apply Z.ltb_lt in E
  | E : (_ >? _) = false |- _ => rewrite Z.gtb_ltb in E; apply Z.ltb_ge in E
  end.

Ltac settle :=
  split; [repeat split|]; simpl in *; intros;
  try reflexivity; try discriminate; try lia; try tauto; eauto.

Lemma back_button_consistent s :
  consistent s -> consistent (fst (back_button s)).
Proof.
  destruct s as [t s1 s2]. intros [(I1 & I2 & I3) K].
  unfold back_button; simpl in *.
  destruct (t >? 1) eqn:G; [|settle].
  destruct (t =? 3) eqn:E3.
  - tiers. destruct (I3 E3) as [N1 N2]. settle.
  - destruct (t =? 2) eqn:E2; [|settle].
    tiers. destruct (I2 E2) as [N1 N2]. subst s2. settle.
Qed.

Lemma reset_button_consistent s : consistent (fst (reset_button s)).
Proof. exact initial_consistent. Qed.

Lemma tier1_button_consistent s supplier :
  consistent s -> consistent (fst (tier1_button H s supplier)).
Proof.
  destruct s as [t s1 s2]. intros [(I1 & I2 & I3) K].
  unfold tier1_button; simpl in *.
  destruct (t =? 1) eqn:E1; simpl; [|settle].
  destruct (mem supplier (keys H)) eqn:M; [|settle].
  tiers. destruct (I1 E1) as [N1 N2]. subst s1 s2.
  split; [repeat split|]; simpl; intros; try discriminate; try lia.
  intros k Hk. injection Hk as <-. exact M.
Qed.

Lemma node_click_consistent s clicked :
  consistent s ->
  exists s' o, node_click H T3 s clicked = Ok (s', o) /\ consistent s'.
Proof.
  destruct s as [t s1 s2]. intros [(I1 & I2 & I3) K].
  unfold node_click; simpl in *.
  destruct (t =? 1) eqn:E1; simpl.
  - destruct (contains clicked H) eqn:C.
    + tiers. destruct (I1 E1) as [N1 N2]. subst s1 s2.
      eexists _, _. split; [reflexivity|].
      split; [repeat split|]; simpl; intros; try discriminate; try lia.
      intros k Hk. injection Hk as <-. exact C.
    + destruct (t =? 2) eqn:E2; [tiers; lia|]. simpl.
      eexists _, _. split; [reflexivity|]. settle.
  - destruct (t =? 2) eqn:E2; simpl.
    2:{ eexists _, _. split; [reflexivity|]. settle. }
    destruct s1 as [k1|]; simpl.
    2:{ eexists _, _. split; [reflexivity|]. settle. }
    destruct (negb (String.eqb k1 "")).
    2:{ eexists _, _. split; [reflexivity|]. settle. }
    destruct (contains_getitem H k1 (K k1 eq_refl)) as [t1 Ht1].
    rewrite Ht1.
    destruct (get (tier2 t1) clicked) as [d|].
    2:{ eexists _, _. split; [reflexivity|]. settle. }
    destruct (contains clicked T3).
    2:{ eexists _, _. split; [reflexivity|]. settle. }
    eexists _, _. split; [reflexivity|].
    split; [repeat split|]; simpl; intros; try discriminate; try lia.
    exact K.
Qed.

Lemma tier2_button_consistent s supplier :
  consistent s ->
  exists s' o, tier2_button H T3 s supplier = Ok (s', o) /\ consistent s'.
Proof.
  destruct s as [t s1 s2]. intros [(I1 & I2 & I3) K].
  unfold tier2_button; simpl in *.
  destruct (t =? 2) eqn:E2; simpl.
  2:{ eexists _, _. split; [reflexivity|]. settle. }
  destruct s1 as [k1|]; simpl.
  2:{ eexists _, _. split; [reflexivity|]. settle. }
  destruct (negb (String.eqb k1 "")).
  2:{ eexists _, _. split; [reflexivity|]. settle. }
  destruct (contains_getitem H k1 (K k1 eq_refl)) as [t1 Ht1].
  rewrite Ht1.
  destruct (mem supplier (tier3_available T3 (tier2 t1))).
  2:{ eexists _, _. split; [reflexivity|]. settle. }
  eexists _, _. split; [reflexivity|].
  split; [repeat split|]; simpl; intros; try discriminate; try lia.
  exact K.
Qed.

(** Every interaction is handled without an exception and keeps the
    state consistent. *)
Lemma handle_consistent s e :
  consistent s ->
  exists s' o, handle H T3 s e = Ok (s', o) /\ consistent s'.
Proof.
  intros C. destruct e as [| |supplier|supplier|clicked]; simpl.
  - exists (fst (back_button s)), (snd (back_button s)).
    split; [now destruct (back_button s)|now apply back_button_consistent].
  - eexists _, _. split; [reflexivity|apply initial_consistent].
  - exists (fst (tier1_button H s supplier)),
           (snd (tier1_button H s supplier)).
    split; [now destruct (tier1_button H s supplier)
           |now apply tier1_button_consistent].
  - now apply tier2_button_consistent.
  - now apply node_click_consistent.
Qed.

Lemma reachable_consistent s : reachable H T3 s -> consistent s.
Proof.
  induction 1 as [|s e s' o _ IH Hstep].
  - apply initial_consistent.
  - destruct (handle_consistent s e IH) as (s1 & o1 & E & C).
    rewrite E in Hstep. injection Hstep as <- _. exact C.
Qed.

(** The drill-down buttons move the session exactly as a click on the
    same node does. *)
Lemma tier1_button_as_click s supplier :
  network_view_tier s = 1 ->
  node_click H T3 s supplier = Ok (tier1_button H s supplier).
Proof.
  destruct s as [t s1 s2]; simpl. intros ->.
  unfold node_click, tier1_button, contains; simpl.
  now destruct (mem supplier (keys H)).
Qed.

Lemma tier2_button_as_click s supplier s' :
  tier2_button H T3 s supplier = Ok (s', Rerun) ->
  node_click H T3 s supplier = Ok (s', Rerun).
Proof.
  destruct s as [t s1 s2].
  unfold tier2_button, node_click, tier3_available; simpl.
  destruct (t =? 2) eqn:E2; simpl; [|discriminate].
  apply Z.eqb_eq in E2; subst t; simpl.
  destruct s1 as [k1|]; simpl; [|discriminate].
  destruct (negb (String.eqb k1 "")); [|discriminate].
  destruct (getitem H k1) as [t1|err]; [|discriminate].
  rewrite mem_filter.
  destruct (mem supplier (keys (tier2 t1))) eqn:M; simpl; [|discriminate].
  apply (contains_get (tier2 t1)) in M as [d Hd]. rewrite Hd.
  destruct (contains supplier T3); [trivial|discriminate].
Qed.
End Generic.

(** The session after drilling into "Balfour Beatty Water". *)
Definition balfour_state : nav_state :=
  mk_nav 2 (Some "Balfour Beatty Water") None.

Lemma balfour_reachable :
  reachable supplier_hierarchy tier3_data balfour_state.
Proof.
  apply (reachable_step _ _ initial_state
           (NodeClick "Balfour Beatty Water") _ Rerun).
  - apply reachable_init.
  - reflexivity.
Defined.

(** No tier-2 supplier of the page's hierarchy has tier-3 data: the third
    tier cannot be entered with these literals. *)
Lemma no_tier3_for_hierarchy :
  forallb (fun kv => match tier3_available tier3_data (tier2 (snd kv)) with
                     | [] => true
                     | _ => false
                     end) supplier_hierarchy = true.
Proof. reflexivity. Qed.

(** C1, as written: the tier-2 view of "Balfour Beatty Water" would have
    [high_risk_count = 1].  The view has two suppliers whose risk is High
    or Critical ("Thames Drainage Specialists", Critical, and
    "Environmental Compliance", High), so the scenario as stated does not
    describe the page. *)
Lemma balfour_high_risk_count_is_not_1 :
  ~ (exists s2 o nodes,
        drillDown supplier_hierarchy tier3_data "Balfour Beatty Water"
                  initial_state = Ok (s2, o)
        /\ s2 = mk_nav 2 (Some "Balfour Beatty Water") None
        /\ view supplier_hierarchy tier3_data s2 = Ok nodes
        /\ List.length nodes = 3%nat
        /\ issue_total nodes = 5
        /\ high_risk_count nodes = 1).
Proof.
  intros (s2 & o & nodes & _ & -> & Hview & _ & _ & Hhigh).
  vm_compute in Hview. injection Hview as <-.
  vm_compute in Hhigh. discriminate.
Qed.

(** C1, amended: from the Tier1 state, drillDown("Balfour Beatty Water")
    moves the session to tier 2 with that supplier selected; the view then
    lists exactly 3 tier-2 suppliers with [issue_total = 5] and
    [high_risk_count = 2]; drillDown("Network Operations") from there only
    shows the detail message of a supplier without tier-3 data and leaves
    the session at tier 2 under "Balfour Beatty Water". *)
Theorem balfour_drill_down_scenario :
  drillDown supplier_hierarchy tier3_data "Balfour Beatty Water"
            initial_state
  = Ok (mk_nav 2 (Some "Balfour Beatty Water") None, Rerun)
  /\ (exists nodes,
        view supplier_hierarchy tier3_data balfour_state = Ok nodes
        /\ keys nodes = ["Thames Drainage Specialists";
                         "Environmental Compliance"; "Network Operations"]
        /\ List.length nodes = 3%nat
        /\ issue_total nodes = 5
        /\ high_risk_count nodes = 2)
  /\ contains "Network Operations" tier3_data = false
  /\ drillDown supplier_hierarchy tier3_data "Network Operations"
               balfour_state
     = Ok (balfour_state, InfoDetail "Network Operations" "Medium" 0).
Proof.
  split; [reflexivity|]. split.
  - eexists. split; [reflexivity|]. repeat split.
  - split; reflexivity.
Qed.

(** C2: every navigation transition (a click that drills into any node
    id, either kind of drill-down button, Back, Reset), taken in any
    reachable state, is handled without an exception and leaves a state that
    satisfies the navigation invariant, whether or not the transition moved
    the session. *)
Theorem transitions_preserve_invariant
    (H : dict tier1_data) (T3 : dict (dict supplier_data))
    (s : nav_state) (e : event) :
  reachable H T3 s ->
  exists s' o, handle H T3 s e = Ok (s', o) /\ nav_invariant s'.
Proof.
  intros R. apply (reachable_consistent H T3) in R.
  destruct (handle_consistent H T3 s e R) as (s' & o & E & [I _]).
  now exists s', o.
Qed.

Lemma transitions_preserve_invariant_witness :
  reachable supplier_hierarchy tier3_data balfour_state
  /\ exists s' o,
       handle supplier_hierarchy tier3_data balfour_state
              (NodeClick "Network Operations") = Ok (s', o)
       /\ nav_invariant s'.
Proof.
  split.
  - exact balfour_reachable.
  - apply (transitions_preserve_invariant supplier_hierarchy tier3_data
             balfour_state (NodeClick "Network Operations")).
    exact balfour_reachable.
Defined.

(** C3: for every key [n] of the hierarchy, drillDown(n) from the Tier1
    state followed by goBack() ends in tier 1 with both selections None. *)
Theorem drill_down_then_back
    (H : dict tier1_data) (T3 : dict (dict supplier_data)) (n : string) :
  contains n H = true ->
  exists s1 s2 o1 o2,
    drillDown H T3 n initial_state = Ok (s1, o1)
    /\ goBack H T3 s1 = Ok (s2, o2)
    /\ s1 = mk_nav 2 (Some n) None
    /\ network_view_tier s2 = 1
    /\ network_selected_tier1 s2 = None
    /\ network_selected_tier2 s2 = None.
Proof.
  intros C.
  exists (mk_nav 2 (Some n) None), (mk_nav 1 None None), Rerun, Rerun.
  unfold drillDown, goBack, handle, node_click, back_button; simpl.
  rewrite C. repeat split.
Qed.

Lemma drill_down_then_back_witness :
  contains "Costain Water Alliance" supplier_hierarchy = true
  /\ exists s1 s2 o1 o2,
       drillDown supplier_hierarchy tier3_data "Costain Water Alliance"
                 initial_state = Ok (s1, o1)
       /\ goBack supplier_hierarchy tier3_data s1 = Ok (s2, o2)
       /\ s1 = mk_nav 2 (Some "Costain Water Alliance") None
       /\ network_view_tier s2 = 1
       /\ network_selected_tier1 s2 = None
       /\ network_selected_tier2 s2 = None.
Proof.
  split.
  - reflexivity.
  - apply (drill_down_then_back supplier_hierarchy tier3_data
             "Costain Water Alliance").
    reflexivity.
Defined.

(** C4: reset() in any reachable state gives the initial state: tier 1
    and no selection. *)
Theorem reset_gives_initial_state
    (H : dict tier1_data) (T3 : dict (dict supplier_data)) (s : nav_state) :
  reachable H T3 s ->
  reset H T3 s = Ok (initial_state, Rerun)
  /\ initial_state = mk_nav 1 None None.
Proof. intros _. split; reflexivity. Qed.

Lemma reset_gives_initial_state_witness :
  reachable supplier_hierarchy tier3_data balfour_state
  /\ reset supplier_hierarchy tier3_data balfour_state
     = Ok (initial_state, Rerun)
  /\ initial_state = mk_nav 1 None None.
Proof.
  split.
  - exact balfour_reachable.
  - apply (reset_gives_initial_state supplier_hierarchy tier3_data
             balfour_state).
    exact balfour_reachable.
Defined.

End NavigatorSpec.

(** ** Cross-chart filter *)

Module ChartFilterSpec.
Import PyDict ChartFilter.

(** *** Lists and columns *)

Lemma filter_twice {A : Type} (f : A -> bool) (l : list A) :
  filter f (filter f l) = filter f l.
Proof.
  induction l as [|x l IH]; simpl; [reflexivity|].
  destruct (f x) eqn:Fx; simpl; [rewrite Fx, IH; reflexivity | exact IH].
Qed.

Lemma filter_keeps_all {A : Type} (f : A -> bool) (l : list A) :
  Forall (fun x => f x = true) l -> filter f l = l.
Proof.
  induction 1 as [|x l Fx _ IH]; simpl; [reflexivity|].
  now rewrite Fx, IH.
Qed.

Lemma filter_shorter {A : Type} (f : A -> bool) (l : list A) :
  (List.length (filter f l) <= List.length l)%nat.
Proof.
  induction l as [|x l IH]; simpl; [lia|].
  destruct (f x); simpl; lia.
Qed.

Lemma mem_column_pos (name : string) (cols : list string) :
  mem name cols = true -> exists i, column_pos name cols = Some i.
Proof.
  unfold mem.
  induction cols as [|c rest IH]; simpl; [discriminate|].
  destruct (String.eqb name c); simpl.
  - intros _. now exists O.
  - intros M. destruct (IH M) as [i Hi]. rewrite Hi. now exists (S i).
Qed.

Lemma column_pos_mem (name : string) (cols : list string) :
  mem name cols = false -> column_pos name cols = None.
Proof.
  unfold mem.
  induction cols as [|c rest IH]; simpl; [reflexivity|].
  destruct (String.eqb name c); simpl; [discriminate|].
  intros M. now rewrite (IH M).
Qed.

(** Under the guard [name in df.columns] the selection cannot raise, and it
    keeps exactly the rows with [row[name] == value]. *)
Lemma select_eq_rows (df : DataFrame) (name : string) (value : scalar) :
  mem name (columns df) = true ->
  select_eq df name value
  = Ok (mk_df (columns df) (filter (row_matches df name value) (rows df))).
Proof.
  intros [i Hi]%mem_column_pos. unfold select_eq. rewrite Hi.
  do 2 f_equal. apply filter_ext. intros r. unfold row_matches.
  now rewrite Hi.
Qed.

(** *** The branches of [apply_cross_chart_filter] *)

Lemma mem_recognized (ft : string) :
  mem ft recognized_dimensions
  = (String.eqb ft "rag_status"
     || (String.eqb ft "procurement_category"
         || (String.eqb ft "supplier"
             || (String.eqb ft "risk_level"
                 || (String.eqb ft "current_stage"
                     || (String.eqb ft "team_member"
                         || (String.eqb ft "market_segment" || false))))))).
Proof. reflexivity. Qed.

Lemma recognized_nonempty (ft : string) :
  mem ft recognized_dimensions = true -> truthy_name (Some ft) = true.
Proof.
  simpl. destruct (String.eqb_spec ft "") as [->|_]; [discriminate|trivial].
Qed.

(** The guard of the first line. *)
Lemma guard_returns_input (st : session) (df : DataFrame)
    (d : option string) (v : scalar) :
  negb (filter_active st) || negb (truthy_name d) || negb (truthy v) = true ->
  apply_cross_chart_filter st df d v = Ok df.
Proof. intros G. unfold apply_cross_chart_filter. now rewrite G. Qed.

(** Past the guard, the chain of [elif]s selects on the filter type when it
    is one of the seven names and a column of the table, and otherwise
    returns the copy of the input. *)
Lemma past_guard (st : session) (df : DataFrame) (ft : string) (v : scalar) :
  negb (filter_active st) || negb (truthy_name (Some ft)) || negb (truthy v)
  = false ->
  apply_cross_chart_filter st df (Some ft) v
  = if mem ft recognized_dimensions && mem ft (columns df)
    then select_eq df ft v
    else Ok df.
Proof.
  intros G. unfold apply_cross_chart_filter. rewrite G, mem_recognized.
  destruct (String.eqb_spec ft "rag_status") as [->|_]; [reflexivity|].
  destruct (String.eqb_spec ft "procurement_category") as [->|_];
    [reflexivity|].
  destruct (String.eqb_spec ft "supplier") as [->|_]; [reflexivity|].
  destruct (String.eqb_spec ft "risk_level") as [->|_]; [reflexivity|].
  destruct (String.eqb_spec ft "current_stage") as [->|_]; [reflexivity|].
  destruct (String.eqb_spec ft "team_member") as [->|_]; [reflexivity|].
  destruct (String.eqb_spec ft "market_segment") as [->|_]; reflexivity.
Qed.

(** The filter never raises, and its result has the columns of its input. *)
Lemma apply_total (st : session) (df : DataFrame)
    (d : option string) (v : scalar) :
  exists out, apply_cross_chart_filter st df d v = Ok out
              /\ columns out = columns df.
Proof.
  destruct (negb (filter_active st) || negb (truthy_name d)
            || negb (truthy v)) eqn:G.
  - exists df. split; [now apply guard_returns_input|reflexivity].
  - destruct d as [ft|].
    + rewrite (past_guard _ _ _ _ G).
      destruct (mem ft recognized_dimensions); simpl; [|now exists df].
      destruct (mem ft (columns df)) eqn:M; [|now exists df].
      rewrite (select_eq_rows _ _ _ M). eexists. split; reflexivity.
    + simpl in G. rewrite orb_true_r in G. discriminate.
Qed.

(** Outside the seven names, or off the columns, the chain falls through. *)
Lemma unrecognized_dimension_aux
    (st : session) (df : DataFrame) (d : string) (v : scalar) :
  mem d recognized_dimensions = false \/ mem d (columns df) = false ->
  apply_cross_chart_filter st df (Some d) v = Ok df.
Proof.
  intros U.
  destruct (negb (filter_active st) || negb (truthy_name (Some d))
            || negb (truthy v)) eqn:G.
  - now apply guard_returns_input.
  - rewrite (past_guard _ _ _ _ G).
    destruct U as [-> | ->]; [reflexivity|now rewrite andb_false_r].
Qed.

(** *** Sample tables and sessions *)

(** A three-contract pipeline table. *)
Definition pipeline : DataFrame :=
  mk_df ["package_name"; "risk_level"; "total_value_gbp"]
        [mk_row 0 [Str "Mains Renewal"; Str "High"; Num 2500000];
         mk_row 1 [Str "Sewer Relining"; Str "Low"; Num 1000000];
         mk_row 2 [Str "Pump Upgrade"; Str "High"; Num 500000]].

(** A table in which one supplier name is the empty string. *)
Definition blank_supplier : DataFrame :=
  mk_df ["supplier"; "total_value_gbp"]
        [mk_row 0 [Str ""; Num 1000000];
         mk_row 1 [Str "MACE Group"; Num 1500000]].

(** A table with one contract and no filter column. *)
Definition one_contract : DataFrame :=
  mk_df ["package_name"; "total_value_gbp"]
        [mk_row 0 [Str "Mains Renewal"; Num 2500000]].

(** A table whose rows all carry the same risk level. *)
Definition all_high : DataFrame :=
  mk_df ["risk_level"; "total_value_gbp"]
        [mk_row 0 [Str "High"; Num 2500000];
         mk_row 1 [Str "High"; Num 500000]].

Definition no_filter : session := mk_session false None PyNone [] [] [].

Definition filter_on (d : string) (v : scalar) : session :=
  mk_session true (Some d) v [] [] [].

(** C5, as written: with the filter active, a recognized dimension that is
    a column and a value present in the table, every returned row would
    satisfy [row[d] == v].  The empty supplier name is present in
    [blank_supplier], but it is false in the guard of the filter, which
    returns the whole table, "MACE Group" row included. *)
Lemma falsy_value_is_not_filtered :
  filter_active (filter_on "supplier" (Str "")) = true
  /\ mem "supplier" recognized_dimensions = true
  /\ mem "supplier" (columns blank_supplier) = true
  /\ (exists r, In r (rows blank_supplier)
                /\ row_matches blank_supplier "supplier" (Str "") r = true)
  /\ exists out,
       apply_cross_chart_filter (filter_on "supplier" (Str ""))
         blank_supplier (Some "supplier") (Str "") = Ok out
       /\ ~ (forall r, In r (rows out) ->
                       row_matches blank_supplier "supplier" (Str "") r
                       = true).
Proof.
  repeat split.
  - exists (mk_row 0 [Str ""; Num 1000000]). split; [now left|reflexivity].
  - exists blank_supplier. split; [reflexivity|].
    intros All.
    specialize (All (mk_row 1 [Str "MACE Group"; Num 1500000])).
    simpl in All. discriminate All. right. now left.
Qed.

(** C5, amended: with the filter active, for every table, every recognized
    dimension [d] that is a column of it and every value [v] that is true
    in Python (not None, not the empty string, not zero), the filter
    returns, under the same columns, exactly the rows with [row[d] == v] in
    their order: every returned row is a row of the table and satisfies
    [row[d] == v], and there are at most [len(df)] of them.  (Whether [v]
    occurs in the table plays no role.) *)
Theorem filter_selects_matching_rows
    (st : session) (df : DataFrame) (d : string) (v : scalar) :
  filter_active st = true ->
  mem d recognized_dimensions = true ->
  mem d (columns df) = true ->
  truthy v = true ->
  exists out,
    apply_cross_chart_filter st df (Some d) v = Ok out
    /\ columns out = columns df
    /\ rows out = filter (row_matches df d v) (rows df)
    /\ (forall r, In r (rows out) ->
                  In r (rows df) /\ row_matches df d v r = true)
    /\ len out <= len df.
Proof.
  intros A R C T.
  assert (G : negb (filter_active st) || negb (truthy_name (Some d))
              || negb (truthy v) = false)
    by (rewrite A, T, (recognized_nonempty d R); reflexivity).
  rewrite (past_guard _ _ _ _ G), R, C, (select_eq_rows _ _ _ C); simpl.
  eexists. split; [reflexivity|]. simpl. repeat split.
  - now apply filter_In in H.
  - now apply filter_In in H.
  - unfold len; simpl. apply inj_le, filter_shorter.
Qed.

Lemma filter_selects_matching_rows_witness :
  filter_active (filter_on "risk_level" (Str "High")) = true
  /\ exists out,
       apply_cross_chart_filter (filter_on "risk_level" (Str "High"))
         pipeline (Some "risk_level") (Str "High") = Ok out
       /\ columns out = columns pipeline
       /\ rows out
          = filter (row_matches pipeline "risk_level" (Str "High"))
                   (rows pipeline)
       /\ (forall r, In r (rows out) ->
                     In r (rows pipeline)
                     /\ row_matches pipeline "risk_level" (Str "High") r
                        = true)
       /\ len out <= len pipeline.
Proof.
  split.
  - reflexivity.
  - apply (filter_selects_matching_rows
             (filter_on "risk_level" (Str "High")) pipeline
             "risk_level" (Str "High")); reflexivity.
Defined.

(** C6: the filter is idempotent: for every session, table, dimension and
    value it returns a table, and filtering that table again with the same
    dimension and value returns the same table. *)
Theorem filter_idempotent
    (st : session) (df : DataFrame) (d : option string) (v : scalar) :
  exists out,
    apply_cross_chart_filter st df d v = Ok out
    /\ apply_cross_chart_filter st out d v = Ok out.
Proof.
  destruct (negb (filter_active st) || negb (truthy_name d)
            || negb (truthy v)) eqn:G.
  - exists df. split; now apply guard_returns_input.
  - destruct d as [ft|].
    2:{ simpl in G. rewrite orb_true_r in G. discriminate. }
    rewrite (past_guard _ _ _ _ G).
    destruct (mem ft recognized_dimensions && mem ft (columns df)) eqn:B.
    + apply andb_prop in B as [R C].
      rewrite (select_eq_rows _ _ _ C).
      eexists. split; [reflexivity|].
      rewrite (past_guard _ _ _ _ G); cbn [columns]. rewrite R, C.
      cbn [andb]. rewrite select_eq_rows by exact C. cbn [columns rows].
      do 2 f_equal.
      change (row_matches (mk_df (columns df) ?l) ft v)
        with (row_matches df ft v).
      apply filter_twice.
    + exists df. split; [reflexivity|].
      now rewrite (past_guard _ _ _ _ G), B.
Qed.

(** C7: when the dimension is not one of the seven recognized names, or is
    not a column of the table, the filter raises nothing and returns the
    table as it is: the same rows in the same order. *)
Theorem unrecognized_dimension_is_no_op
    (st : session) (df : DataFrame) (d : string) (v : scalar) :
  mem d recognized_dimensions = false \/ mem d (columns df) = false ->
  apply_cross_chart_filter st df (Some d) v = Ok df.
Proof.
  intros U.
  destruct (negb (filter_active st) || negb (truthy_name (Some d))
            || negb (truthy v)) eqn:G.
  - now apply guard_returns_input.
  - rewrite (past_guard _ _ _ _ G).
    destruct U as [-> | ->]; [reflexivity|now rewrite andb_false_r].
Qed.

Lemma unrecognized_dimension_is_no_op_witness :
  (mem "package_name" recognized_dimensions = false
   \/ mem "package_name" (columns pipeline) = false)
  /\ (mem "supplier" recognized_dimensions = false
      \/ mem "supplier" (columns pipeline) = false)
  /\ apply_cross_chart_filter (filter_on "package_name" (Str "Pump Upgrade"))
       pipeline (Some "package_name") (Str "Pump Upgrade") = Ok pipeline
  /\ apply_cross_chart_filter (filter_on "supplier" (Str "MACE Group"))
       pipeline (Some "supplier") (Str "MACE Group") = Ok pipeline.
Proof.
  split; [left; reflexivity|]. split; [right; reflexivity|]. split.
  - apply (unrecognized_dimension_is_no_op
             (filter_on "package_name" (Str "Pump Upgrade")) pipeline
             "package_name" (Str "Pump Upgrade")).
    left; reflexivity.
  - apply unrecognized_dimension_is_no_op. right; reflexivity.
Defined.

(** C10: when the session's filter-active flag is false, or the dimension
    is None, or the value is false in Python (None, the empty string, the
    number 0), the filter returns the table unchanged, whatever the
    dimension and the contents of the table. *)
Theorem inactive_or_falsy_filter_returns_input
    (st : session) (df : DataFrame) (d : option string) (v : scalar) :
  filter_active st = false \/ d = None \/ truthy v = false ->
  apply_cross_chart_filter st df d v = Ok df.
Proof.
  intros [A | [-> | T]]; apply guard_returns_input.
  - now rewrite A.
  - simpl. now rewrite orb_true_r.
  - rewrite T. simpl. now rewrite orb_true_r.
Qed.

Lemma inactive_or_falsy_filter_returns_input_witness :
  truthy (Str "") = false
  /\ truthy (Num 0) = false
  /\ mem "supplier" recognized_dimensions = true
  /\ mem "supplier" (columns blank_supplier) = true
  /\ row_matches blank_supplier "supplier" (Str "")
       (mk_row 0 [Str ""; Num 1000000]) = true
  /\ apply_cross_chart_filter (filter_on "supplier" (Str ""))
       blank_supplier (Some "supplier") (Str "") = Ok blank_supplier.
Proof.
  do 5 (split; [reflexivity|]).
  apply (inactive_or_falsy_filter_returns_input
           (filter_on "supplier" (Str "")) blank_supplier
           (Some "supplier") (Str "")).
  right; right; reflexivity.
Defined.

(** *** Summary statistics *)

(** On a column of numbers [series.sum()] is the sum of the numbers. *)
Lemma series_sum_numbers (qs : list Q) :
  series_sum (map Num qs) = Ok (fold_right Qplus 0%Q qs).
Proof.
  induction qs as [|q qs IH]; simpl; [reflexivity|now rewrite IH].
Qed.

(** A filter that every row matches returns the table itself. *)
Lemma matching_filter_returns_input
    (st : session) (df : DataFrame) (d : string) (v : scalar) :
  (forall r, In r (rows df) -> row_matches df d v r = true) ->
  apply_cross_chart_filter st df (Some d) v = Ok df.
Proof.
  intros All.
  destruct (negb (filter_active st) || negb (truthy_name (Some d))
            || negb (truthy v)) eqn:G.
  - now apply guard_returns_input.
  - rewrite (past_guard _ _ _ _ G).
    destruct (mem d recognized_dimensions); [|reflexivity].
    destruct (mem d (columns df)) eqn:C; [|reflexivity].
    cbn [andb]. rewrite (select_eq_rows _ _ _ C).
    rewrite filter_keeps_all by (now apply Forall_forall).
    now destruct df.
Qed.

(** C8, as written: [total_value] would be the sum of the
    [total_value_gbp] column.  For the single contract of 2,500,000 pounds
    the summary holds 2.5: the sum divided by 1,000,000. *)
Lemma summary_value_is_not_the_plain_sum :
  exists col total r,
    series one_contract "total_value_gbp" = Ok col
    /\ series_sum col = Ok total
    /\ (total == 2500000)%Q
    /\ get_filtered_summary_stats no_filter one_contract = Ok r
    /\ contracts r = 1
    /\ (value_m r == 2.5)%Q
    /\ ~ (value_m r == total)%Q.
Proof.
  eexists _, _, _.
  split; [reflexivity|]. split; [reflexivity|]. split; [reflexivity|].
  split; [reflexivity|]. split; [reflexivity|]. split; [reflexivity|].
  intros E. vm_compute in E. discriminate E.
Qed.

(** The sum of the numbers of a column, missing cells left out. *)
Definition numeric_total (col : list scalar) : Q :=
  fold_right (fun c total => match c with
                             | Num q => (q + total)%Q
                             | _ => total
                             end) 0%Q col.

(** The column holds a text cell. *)
Definition has_text (col : list scalar) : bool :=
  existsb (fun c => match c with Str _ => true | _ => false end) col.

(** The number fits in a signed 64-bit integer. *)
Definition fits_int64 (q : Q) : Prop :=
  (-9223372036854775808 <= q)%Q /\ (q < 9223372036854775808)%Q.

Lemma series_sum_numeric (col : list scalar) :
  has_text col = false -> series_sum col = Ok (numeric_total col).
Proof.
  induction col as [|c col IH]; [reflexivity|].
  cbn [has_text existsb series_sum numeric_total fold_right].
  destruct c; cbn [orb]; try discriminate;
    intros T; now rewrite (IH T).
Qed.

Lemma series_sum_text (col : list scalar) :
  has_text col = true -> series_sum col = Raise TypeError.
Proof.
  induction col as [|c col IH]; [discriminate|].
  cbn [has_text existsb series_sum].
  destruct (series_sum col) as [total|e] eqn:S.
  - destruct c; cbn [orb]; try reflexivity;
      intros T; specialize (IH T); discriminate IH.
  - destruct (has_text col) eqn:T.
    + specialize (IH eq_refl). now injection IH as ->.
    + rewrite (series_sum_numeric col T) in S. discriminate S.
Qed.

(** What the summary is, given the view it is computed over. *)
Lemma summary_of_view (st : session) (df view : DataFrame) :
  (if filter_active st
   then apply_cross_chart_filter st df (filter_type st) (filter_value st)
   else Ok df) = Ok view ->
  get_filtered_summary_stats st df
  = match total_value_m view with
    | Ok total_value =>
        Ok (mk_stats (len view) total_value (filter_active st))
    | Raise e => Raise e
    end.
Proof.
  unfold get_filtered_summary_stats.
  destruct (filter_active st); [intros -> | intros [= ->]]; reflexivity.
Qed.

(** C8, amended: the summary is computed over the filtered view when the
    session's filter is active and over the full table otherwise.  When
    the table has no [total_value_gbp] column it returns the number of rows
    of that view, the value 0 and the flag telling whether the filter was
    active.  When the column is there and holds, over the view, only
    numbers and missing cells whose sum fits in a signed 64-bit integer, it
    returns the number of rows of the view, that sum divided by 1,000,000
    (the value in millions, not the plain sum) and the flag.  When the
    column holds a text cell in the view it raises TypeError and returns
    nothing. *)
Theorem summary_stats_over_view (st : session) (df : DataFrame) :
  exists view,
    (if filter_active st
     then apply_cross_chart_filter st df (filter_type st) (filter_value st)
     else Ok df) = Ok view
    /\ columns view = columns df
    /\ (mem "total_value_gbp" (columns df) = false ->
        get_filtered_summary_stats st df
        = Ok (mk_stats (len view) 0 (filter_active st)))
    /\ (forall col,
          series view "total_value_gbp" = Ok col ->
          has_text col = false ->
          fits_int64 (numeric_total col) ->
          get_filtered_summary_stats st df
          = Ok (mk_stats (len view) (numeric_total col / 1000000)
                  (filter_active st)))
    /\ (forall col,
          series view "total_value_gbp" = Ok col ->
          has_text col = true ->
          get_filtered_summary_stats st df = Raise TypeError).
Proof.
  assert (V : exists view,
             (if filter_active st
              then apply_cross_chart_filter st df (filter_type st)
                     (filter_value st)
              else Ok df) = Ok view
             /\ columns view = columns df).
  { destruct (filter_active st).
    - apply apply_total.
    - exists df. split; reflexivity. }
  destruct V as (view & E & Cols). exists view.
  split; [exact E|]. split; [exact Cols|].
  rewrite (summary_of_view st df view E). unfold total_value_m.
  rewrite Cols. split; [|split].
  - intros ->. reflexivity.
  - intros col S T _.
    destruct (mem "total_value_gbp" (columns df)) eqn:M.
    + now rewrite S, (series_sum_numeric col T).
    + unfold series in S. rewrite Cols, (column_pos_mem _ _ M) in S.
      discriminate S.
  - intros col S T.
    destruct (mem "total_value_gbp" (columns df)) eqn:M.
    + now rewrite S, (series_sum_text col T).
    + unfold series in S. rewrite Cols, (column_pos_mem _ _ M) in S.
      discriminate S.
Qed.

Lemma summary_stats_over_view_witness :
  series (mk_df (columns pipeline)
            [mk_row 0 [Str "Mains Renewal"; Str "High"; Num 2500000];
             mk_row 2 [Str "Pump Upgrade"; Str "High"; Num 500000]])
    "total_value_gbp" = Ok [Num 2500000; Num 500000]
  /\ has_text [Num 2500000; Num 500000] = false
  /\ fits_int64 (numeric_total [Num 2500000; Num 500000])
  /\ get_filtered_summary_stats (filter_on "risk_level" (Str "High")) pipeline
     = Ok (mk_stats 2 ((2500000 + (500000 + 0)) / 1000000) true)
  /\ exists view,
       (if filter_active (filter_on "risk_level" (Str "High"))
        then apply_cross_chart_filter (filter_on "risk_level" (Str "High"))
               pipeline
               (filter_type (filter_on "risk_level" (Str "High")))
               (filter_value (filter_on "risk_level" (Str "High")))
        else Ok pipeline) = Ok view
       /\ columns view = columns pipeline
       /\ (mem "total_value_gbp" (columns pipeline) = false ->
           get_filtered_summary_stats (filter_on "risk_level" (Str "High"))
             pipeline
           = Ok (mk_stats (len view) 0
                   (filter_active (filter_on "risk_level" (Str "High")))))
       /\ (forall col,
             series view "total_value_gbp" = Ok col ->
             has_text col = false ->
             fits_int64 (numeric_total col) ->
             get_filtered_summary_stats (filter_on "risk_level" (Str "High"))
               pipeline
             = Ok (mk_stats (len view) (numeric_total col / 1000000)
                     (filter_active (filter_on "risk_level" (Str "High")))))
       /\ (forall col,
             series view "total_value_gbp" = Ok col ->
             has_text col = true ->
             get_filtered_summary_stats (filter_on "risk_level" (Str "High"))
               pipeline
             = Raise TypeError).
Proof.
  split; [reflexivity|]. split; [reflexivity|].
  split; [split; vm_compute; [discriminate | reflexivity]|].
  split; [reflexivity|].
  exact (summary_stats_over_view (filter_on "risk_level" (Str "High"))
           pipeline).
Defined.

(** C9: for every table, the row count and the value of the summary with
    no active filter are those of the summary with an active filter (d, v)
    that every row of the table matches. *)
Theorem matching_filter_same_totals
    (st_off st_on : session) (df : DataFrame) (d : string) (v : scalar) :
  filter_active st_off = false ->
  filter_active st_on = true ->
  filter_type st_on = Some d ->
  filter_value st_on = v ->
  (forall r, In r (rows df) -> row_matches df d v r = true) ->
  totals (get_filtered_summary_stats st_on df)
  = totals (get_filtered_summary_stats st_off df).
Proof.
  intros Off On D V All. unfold get_filtered_summary_stats.
  rewrite Off, On, D, V, (matching_filter_returns_input _ _ _ _ All).
  now destruct (total_value_m df).
Qed.

Lemma matching_filter_same_totals_witness :
  (forall r, In r (rows all_high) ->
             row_matches all_high "risk_level" (Str "High") r = true)
  /\ totals (get_filtered_summary_stats
               (filter_on "risk_level" (Str "High")) all_high)
     = totals (get_filtered_summary_stats no_filter all_high).
Proof.
  assert (All : forall r, In r (rows all_high) ->
                  row_matches all_high "risk_level" (Str "High") r = true).
  { intros r [<- | [<- | []]]; reflexivity. }
  split.
  - exact All.
  - apply (matching_filter_same_totals no_filter
             (filter_on "risk_level" (Str "High")) all_high
             "risk_level" (Str "High"));
      [reflexivity | reflexivity | reflexivity | reflexivity | exact All].
Defined.

(** The dictionary the function returns also has a ['filtered'] entry,
    which tells the two summaries of C9 apart. *)
Remark filtered_entry_differs :
  exists q,
    get_filtered_summary_stats (filter_on "risk_level" (Str "High")) all_high
    = Ok (mk_stats 2 q true)
    /\ get_filtered_summary_stats no_filter all_high
       = Ok (mk_stats 2 q false).
Proof. eexists. split; reflexivity. Qed.

(** A text column under the name of the value column makes the summary
    raise rather than return. *)
Remark text_value_column_raises :
  get_filtered_summary_stats no_filter
    (mk_df ["total_value_gbp"] [mk_row 0 [Str "n/a"]])
  = Raise TypeError.
Proof. reflexivity. Qed.

End ChartFilterSpec.

(** ** Navigation: further properties of the network page *)

Module NavigatorFacts.
Import PyDict PyDictFacts Navigator.

Lemma get_In {V : Type} (d : dict V) (k : string) (v : V) :
  get d k = Some v -> In (k, v) d.
Proof.
  induction d as [|[k' v'] rest IH]; simpl; [discriminate|].
  destruct (String.eqb_spec k k') as [->|_].
  - intros [= ->]. now left.
  - intros G. right. now apply IH.
Qed.

Lemma getitem_Ok {V : Type} (d : dict V) (k : string) (v : V) :
  getitem d k = Ok v <-> get d k = Some v.
Proof.
  unfold getitem. destruct (get d k); split; congruence.
Qed.

Lemma count_nonneg {A : Type} (l : list A) :
  0 <= fold_right Z.add 0 (map (fun _ => 1) l).
Proof. induction l as [|x l IH]; cbn [map fold_right]; lia. Qed.

Section Generic.
Variable H : dict tier1_data.
Variable T3 : dict (dict supplier_data).

(** The shape of a session state: at tier 2 the selected supplier is a key
    of the hierarchy; at tier 3 the second selection is moreover one of its
    tier-2 suppliers and a key of the tier-3 table. *)
Definition chained (s : nav_state) : Prop :=
  match network_view_tier s with
  | 1 => network_selected_tier1 s = None /\ network_selected_tier2 s = None
  | 2 => exists p t1,
           network_selected_tier1 s = Some p /\ get H p = Some t1
           /\ network_selected_tier2 s = None
  | 3 => exists p t1 c d,
           network_selected_tier1 s = Some p /\ get H p = Some t1
           /\ network_selected_tier2 s = Some c
           /\ get (tier2 t1) c = Some d
           /\ contains c T3 = true
  | _ => False
  end.

Ltac tiers :=
  repeat match goal with
  | E : (_ =? _) = true |- _ => apply Z.eqb_eq in E; subst
  | E : (_ =? _) = false |- _ => apply Z.eqb_neq in E
  | E : (_ >? _) = true |- _ => rewrite Z.gtb_ltb in E; apply Z.ltb_lt in E
  | E : (_ >? _) = false |- _ => rewrite Z.gtb_ltb in E; apply Z.ltb_ge in E
  end.

Lemma chained_tier s : chained s -> 1 <= network_view_tier s <= 3.
Proof.
  unfold chained. destruct (network_view_tier s) as [|[[|[]|]|[]|]|];
    try contradiction; lia.
Qed.

Lemma chained_cases s :
  chained s ->
  s = mk_nav 1 None None
  \/ (exists p t1, s = mk_nav 2 (Some p) None /\ get H p = Some t1)
  \/ (exists p t1 c d,
        s = mk_nav 3 (Some p) (Some c) /\ get H p = Some t1
        /\ get (tier2 t1) c = Some d /\ contains c T3 = true).
Proof.
  destruct s as [t s1 s2]. unfold chained; simpl.
  destruct t as [|[[|[]|]|[]|]|]; try contradiction.
  - intros (p & t1 & c & d & -> & G & -> & G2 & C).
    right; right. now exists p, t1, c, d.
  - intros (p & t1 & -> & G & ->). right; left. now exists p, t1.
  - intros [-> ->]. now left.
Qed.

Lemma back_button_chained s : chained s -> chained (fst (back_button s)).
Proof.
  intros C.
  destruct (chained_cases s C)
    as [-> | [(p & t1 & -> & G) | (p & t1 & c & d & -> & G & G2 & C3)]];
    cbn; eauto 6.
Qed.

Lemma tier1_button_chained s supplier :
  chained s -> chained (fst (tier1_button H s supplier)).
Proof.
  intros C.
  destruct (chained_cases s C)
    as [-> | [(p & t1 & -> & G) | (p & t1 & c & d & -> & G & G2 & C3)]];
    unfold tier1_button; cbn [network_view_tier Z.eqb Pos.eqb andb fst];
    try exact C.
  destruct (mem supplier (keys H)) eqn:M; cbn; [|auto].
  apply (contains_get H supplier) in M as [t1 G].
  exists supplier, t1. auto.
Qed.

Lemma node_click_chained s clicked s' o :
  chained s -> node_click H T3 s clicked = Ok (s', o) -> chained s'.
Proof.
  intros C.
  destruct (chained_cases s C)
    as [-> | [(p & t1 & -> & G) | (p & t1 & c & d & -> & G & G2 & C3)]];
    unfold node_click; cbn [network_view_tier network_selected_tier1
      network_selected_tier2 Z.eqb Pos.eqb andb truthy].
  - destruct (contains clicked H) eqn:M; intros [= <- <-]; [|exact C].
    apply (contains_get H clicked) in M as [t1 G]. cbn.
    exists clicked, t1. auto.
  - destruct (negb (String.eqb p "")); [|intros [= <- <-]; exact C].
    apply getitem_Ok in G as GI. rewrite GI.
    destruct (get (tier2 t1) clicked) as [d|] eqn:G2;
      [|intros [= <- <-]; exact C].
    destruct (contains clicked T3) eqn:C3; intros [= <- <-]; [|exact C].
    cbn. exists p, t1, clicked, d. auto.
  - intros [= <- <-]. exact C.
Qed.

Lemma tier2_button_chained s supplier s' o :
  chained s -> tier2_button H T3 s supplier = Ok (s', o) -> chained s'.
Proof.
  intros C.
  destruct (chained_cases s C)
    as [-> | [(p & t1 & -> & G) | (p & t1 & c & d & -> & G & G2 & C3)]];
    unfold tier2_button; cbn [network_view_tier network_selected_tier1
      network_selected_tier2 Z.eqb Pos.eqb andb truthy];
    try (intros [= <- <-]; exact C).
  destruct (negb (String.eqb p "")); [|intros [= <- <-]; exact C].
  apply getitem_Ok in G as GI. rewrite GI.
  unfold tier3_available. rewrite mem_filter.
  destruct (mem supplier (keys (tier2 t1))) eqn:M; cbn [andb];
    [|intros [= <- <-]; exact C].
  destruct (contains supplier T3) eqn:C3; intros [= <- <-]; [|exact C].
  apply (contains_get (tier2 t1) supplier) in M as [d G2].
  cbn. exists p, t1, supplier, d. auto.
Qed.

Lemma handle_chained s e s' o :
  chained s -> handle H T3 s e = Ok (s', o) -> chained s'.
Proof.
  intros C. destruct e as [| |supplier|supplier|clicked]; simpl.
  - intros [= E]. apply (f_equal fst) in E. simpl in E. subst s'.
    now apply back_button_chained.
  - intros [= <- <-]. cbn. auto.
  - intros [= E]. apply (f_equal fst) in E. simpl in E. subst s'.
    now apply tier1_button_chained.
  - now apply tier2_button_chained.
  - now apply node_click_chained.
Qed.

Lemma reachable_chained_aux s : reachable H T3 s -> chained s.
Proof.
  induction 1 as [|s e s' o _ IH Hstep].
  - cbn. auto.
  - exact (handle_chained s e s' o IH Hstep).
Qed.

End Generic.

(** A hierarchy in which no supplier name, at tier 1 or tier 2, is the
    empty string. *)
Definition names_nonempty (H : dict tier1_data) : bool :=
  forallb (fun kv =>
             negb (String.eqb (fst kv) "")
             && forallb (fun kv2 => negb (String.eqb (fst kv2) ""))
                        (tier2 (snd kv))) H.

(** A hierarchy none of whose tier-2 suppliers is a key of the tier-3
    table. *)
Definition no_tier3_available
    (H : dict tier1_data) (T3 : dict (dict supplier_data)) : bool :=
  forallb (fun kv => match tier3_available T3 (tier2 (snd kv)) with
                     | [] => true
                     | _ :: _ => false
                     end) H.

Lemma node_click_tier
    (H : dict tier1_data) (T3 : dict (dict supplier_data))
    (s s' : nav_state) (n : string) (o : outcome) :
  node_click H T3 s n = Ok (s', o) ->
  network_view_tier s' = network_view_tier s
  \/ network_view_tier s' = network_view_tier s + 1.
Proof.
  destruct s as [t s1 s2]. unfold node_click; simpl.
  destruct (t =? 1) eqn:E1; simpl.
  - apply Z.eqb_eq in E1; subst t.
    destruct (contains n H); intros [= <- _]; auto.
  - destruct (t =? 2) eqn:E2; simpl; [|intros [= <- _]; auto].
    apply Z.eqb_eq in E2; subst t.
    destruct s1 as [p|]; simpl; [|intros [= <- _]; auto].
    destruct (negb (String.eqb p "")); [|intros [= <- _]; auto].
    destruct (getitem H p) as [t1|err]; [|discriminate].
    destruct (get (tier2 t1) n) as [d|]; [|intros [= <- _]; auto].
    destruct (contains n T3); intros [= <- _]; auto.
Qed.

(** X1: a click on a node either drills down exactly one tier (and the
    page reruns) or leaves the session exactly as it was. *)
Theorem click_moves_one_tier_or_nothing
    (H : dict tier1_data) (T3 : dict (dict supplier_data))
    (s s' : nav_state) (n : string) (o : outcome) :
  node_click H T3 s n = Ok (s', o) ->
  (o = Rerun /\ network_view_tier s' = network_view_tier s + 1
   /\ network_view_tier s' <= 3)
  \/ (o <> Rerun /\ s' = s).
Proof.
  destruct s as [t s1 s2]. unfold node_click; simpl.
  destruct (t =? 1) eqn:E1; simpl.
  - apply Z.eqb_eq in E1; subst t; simpl.
    destruct (contains n H); intros [= <- <-]; simpl.
    + left. repeat split; lia.
    + right. split; [discriminate|reflexivity].
  - destruct (t =? 2) eqn:E2; simpl.
    2:{ intros [= <- <-]. right. split; [discriminate|reflexivity]. }
    apply Z.eqb_eq in E2; subst t.
    destruct s1 as [p|]; simpl.
    2:{ intros [= <- <-]. right. split; [discriminate|reflexivity]. }
    destruct (negb (String.eqb p "")).
    2:{ intros [= <- <-]. right. split; [discriminate|reflexivity]. }
    destruct (getitem H p) as [t1|err]; [|discriminate].
    destruct (get (tier2 t1) n) as [d|].
    2:{ intros [= <- <-]. right. split; [discriminate|reflexivity]. }
    destruct (contains n T3); intros [= <- <-]; simpl.
    + left. repeat split; lia.
    + right. split; [discriminate|reflexivity].
Qed.

Lemma click_moves_one_tier_or_nothing_witness :
  node_click supplier_hierarchy tier3_data
    (mk_nav 2 (Some "Balfour Beatty Water") None) "Environmental Compliance"
  = Ok (mk_nav 2 (Some "Balfour Beatty Water") None,
        InfoDetail "Environmental Compliance" "High" 73.5)
  /\ ((InfoDetail "Environmental Compliance" "High" 73.5 = Rerun
       /\ 2 = 2 + 1 /\ 2 <= 3)
      \/ (InfoDetail "Environmental Compliance" "High" 73.5 <> Rerun
          /\ mk_nav 2 (Some "Balfour Beatty Water") None
             = mk_nav 2 (Some "Balfour Beatty Water") None)).
Proof.
  split.
  - reflexivity.
  - apply (click_moves_one_tier_or_nothing supplier_hierarchy tier3_data
             (mk_nav 2 (Some "Balfour Beatty Water") None)
             (mk_nav 2 (Some "Balfour Beatty Water") None)
             "Environmental Compliance"
             (InfoDetail "Environmental Compliance" "High" 73.5)).
    reflexivity.
Defined.

(** X2: every reachable session is at tier 1, 2 or 3 and carries the
    selections of that tier: none at tier 1; at tier 2 a key of the
    hierarchy; at tier 3 moreover one of that supplier's tier-2 suppliers
    which is a key of the tier-3 table. *)
Theorem reachable_states_are_chained
    (H : dict tier1_data) (T3 : dict (dict supplier_data)) (s : nav_state) :
  reachable H T3 s ->
  1 <= network_view_tier s <= 3 /\ chained H T3 s.
Proof.
  intros R. apply reachable_chained_aux in R.
  split; [now apply (chained_tier H T3)|exact R].
Qed.

Lemma reachable_states_are_chained_witness :
  reachable supplier_hierarchy tier3_data
    (mk_nav 2 (Some "Balfour Beatty Water") None)
  /\ 1 <= 2 <= 3
  /\ chained supplier_hierarchy tier3_data
       (mk_nav 2 (Some "Balfour Beatty Water") None).
Proof.
  assert (R : reachable supplier_hierarchy tier3_data
                (mk_nav 2 (Some "Balfour Beatty Water") None)).
  { apply (reachable_step _ _ initial_state
             (NodeClick "Balfour Beatty Water") _ Rerun);
      [apply reachable_init | reflexivity]. }
  split; [exact R|].
  exact (reachable_states_are_chained supplier_hierarchy tier3_data _ R).
Defined.

(** X3: in every reachable session the lookups of the page rendering
    succeed: the view of the current tier and the central node of the
    tier-3 view are obtained without a KeyError. *)
Theorem reachable_views_render
    (H : dict tier1_data) (T3 : dict (dict supplier_data)) (s : nav_state) :
  reachable H T3 s ->
  exists nodes centre,
    view H T3 s = Ok nodes /\ tier3_central_node H T3 s = Ok centre.
Proof.
  intros R. apply reachable_chained_aux in R.
  destruct (chained_cases H T3 s R)
    as [-> | [(p & t1 & -> & G) | (p & t1 & c & d & -> & G & G2 & C3)]].
  - eexists _, _. split; reflexivity.
  - unfold view, tier3_central_node; cbn.
    apply getitem_Ok in G. rewrite G.
    destruct (negb (String.eqb p "")); eexists _, _; split; reflexivity.
  - unfold view, tier3_central_node; cbn.
    apply getitem_Ok in G. apply getitem_Ok in G2. rewrite G, G2.
    destruct (negb (String.eqb c "")); [|eexists _, _; split; reflexivity].
    destruct (get T3 c) as [[|x l]|]; eexists _, _; split; reflexivity.
Qed.

Lemma reachable_views_render_witness :
  reachable supplier_hierarchy tier3_data
    (mk_nav 2 (Some "Costain Water Alliance") None)
  /\ exists nodes centre,
       view supplier_hierarchy tier3_data
         (mk_nav 2 (Some "Costain Water Alliance") None) = Ok nodes
       /\ tier3_central_node supplier_hierarchy tier3_data
            (mk_nav 2 (Some "Costain Water Alliance") None) = Ok centre.
Proof.
  assert (R : reachable supplier_hierarchy tier3_data
                (mk_nav 2 (Some "Costain Water Alliance") None)).
  { apply (reachable_step _ _ initial_state
             (NodeClick "Costain Water Alliance") _ Rerun);
      [apply reachable_init | reflexivity]. }
  split; [exact R|].
  exact (reachable_views_render supplier_hierarchy tier3_data _ R).
Defined.

(** X4: in a reachable session, the Back button undoes a drill-down: after
    a click that drilled down, Back returns exactly the session the click
    started from. *)
Theorem back_undoes_drill_down
    (H : dict tier1_data) (T3 : dict (dict supplier_data))
    (s s' : nav_state) (n : string) :
  reachable H T3 s ->
  node_click H T3 s n = Ok (s', Rerun) ->
  back_button s' = (s, Rerun).
Proof.
  intros R. apply reachable_chained_aux in R.
  destruct (chained_cases H T3 s R)
    as [-> | [(p & t1 & -> & G) | (p & t1 & c & d & -> & G & G2 & C3)]];
    unfold node_click; cbn.
  - destruct (contains n H); intros [= <-]; reflexivity.
  - destruct (negb (String.eqb p "")); [|discriminate].
    destruct (getitem H p) as [t1'|]; [|discriminate].
    destruct (get (tier2 t1') n); [|discriminate].
    destruct (contains n T3); [|discriminate].
    intros [= <-]. reflexivity.
  - discriminate.
Qed.

Lemma back_undoes_drill_down_witness :
  reachable supplier_hierarchy tier3_data initial_state
  /\ node_click supplier_hierarchy tier3_data initial_state
       "Jacobs Engineering"
     = Ok (mk_nav 2 (Some "Jacobs Engineering") None, Rerun)
  /\ back_button (mk_nav 2 (Some "Jacobs Engineering") None)
     = (initial_state, Rerun).
Proof.
  split; [apply reachable_init|]. split; [reflexivity|].
  apply (back_undoes_drill_down supplier_hierarchy tier3_data
           initial_state (mk_nav 2 (Some "Jacobs Engineering") None)
           "Jacobs Engineering");
    [apply reachable_init | reflexivity].
Defined.

(** X5: when no tier-2 supplier of the hierarchy is a key of the tier-3
    table, no sequence of interactions enters tier 3.  The literals of the
    page are such a hierarchy. *)
Theorem tier3_unreachable_without_tier3_data
    (H : dict tier1_data) (T3 : dict (dict supplier_data)) (s : nav_state) :
  no_tier3_available H T3 = true ->
  reachable H T3 s ->
  network_view_tier s = 1 \/ network_view_tier s = 2.
Proof.
  intros N R. apply reachable_chained_aux in R.
  destruct (chained_cases H T3 s R)
    as [-> | [(p & t1 & -> & G) | (p & t1 & c & d & -> & G & G2 & C3)]];
    [now left | now right |].
  exfalso.
  unfold no_tier3_available in N. rewrite forallb_forall in N.
  specialize (N (p, t1) (get_In H p t1 G)). simpl in N.
  assert (M : mem c (tier3_available T3 (tier2 t1)) = true).
  { unfold tier3_available. rewrite mem_filter, C3, andb_true_r.
    apply (contains_get (tier2 t1) c). now exists d. }
  destruct (tier3_available T3 (tier2 t1)); [discriminate M|discriminate N].
Qed.

Lemma tier3_unreachable_without_tier3_data_witness :
  no_tier3_available supplier_hierarchy tier3_data = true
  /\ reachable supplier_hierarchy tier3_data
       (mk_nav 2 (Some "MACE Group") None)
  /\ (2 = 1 \/ 2 = 2).
Proof.
  assert (R : reachable supplier_hierarchy tier3_data
                (mk_nav 2 (Some "MACE Group") None)).
  { apply (reachable_step _ _ initial_state (NodeClick "MACE Group") _ Rerun);
      [apply reachable_init | reflexivity]. }
  split; [reflexivity|]. split; [exact R|].
  exact (tier3_unreachable_without_tier3_data supplier_hierarchy tier3_data
           _ eq_refl R).
Defined.

(** X6: when no supplier name is empty, the "Current Path" line of a
    reachable session has as many parts as the current tier: "Suppliers",
    then the selected tier-1 supplier from tier 2 on, then the selected
    tier-2 supplier at tier 3. *)
Theorem current_path_depth_is_tier
    (H : dict tier1_data) (T3 : dict (dict supplier_data)) (s : nav_state) :
  names_nonempty H = true ->
  reachable H T3 s ->
  Z.of_nat (List.length (path_parts s)) = network_view_tier s.
Proof.
  intros N R. apply reachable_chained_aux in R.
  unfold names_nonempty in N. rewrite forallb_forall in N.
  destruct (chained_cases H T3 s R)
    as [-> | [(p & t1 & -> & G) | (p & t1 & c & d & -> & G & G2 & C3)]];
    [reflexivity | |];
    specialize (N (p, t1) (get_In H p t1 G)); simpl in N;
    apply andb_prop in N as [Np N2]; unfold path_parts; cbn; rewrite Np.
  - reflexivity.
  - rewrite forallb_forall in N2.
    specialize (N2 (c, d) (get_In _ c d G2)). simpl in N2. rewrite N2.
    reflexivity.
Qed.

Lemma current_path_depth_is_tier_witness :
  names_nonempty supplier_hierarchy = true
  /\ reachable supplier_hierarchy tier3_data
       (mk_nav 2 (Some "Atkins (SNC-Lavalin)") None)
  /\ Z.of_nat (List.length
                 (path_parts (mk_nav 2 (Some "Atkins (SNC-Lavalin)") None)))
     = 2.
Proof.
  assert (R : reachable supplier_hierarchy tier3_data
                (mk_nav 2 (Some "Atkins (SNC-Lavalin)") None)).
  { apply (reachable_step _ _ initial_state
             (NodeClick "Atkins (SNC-Lavalin)") _ Rerun);
      [apply reachable_init | reflexivity]. }
  split; [reflexivity|]. split; [exact R|].
  exact (current_path_depth_is_tier supplier_hierarchy tier3_data
           _ eq_refl R).
Defined.

(** X7: for every dictionary of suppliers, the "Critical Risk" and "High
    Risk" counts of the tier-3 analysis add up to the "High Risk" count of
    the tier-1 and tier-2 summaries. *)
Theorem critical_and_high_make_high_risk (suppliers : dict supplier_data) :
  critical_count suppliers + high_count suppliers
  = high_risk_count suppliers.
Proof.
  unfold critical_count, high_count, high_risk_count, values, mem.
  cbn [existsb].
  induction suppliers as [|[k d] rest IH]; [reflexivity|].
  cbn [map snd filter].
  destruct (String.eqb_spec (risk d) "High") as [E|_];
    destruct (String.eqb_spec (risk d) "Critical") as [E'|_];
    cbn [orb map fold_right]; try lia.
  rewrite E in E'. discriminate E'.
Qed.

(** X8: when no supplier has a negative number of issues, the "Suppliers
    with Issues" panel lists nobody exactly when the "Total Issues" metric
    is 0, and the issues of the listed suppliers add up to that metric. *)
Theorem issues_panel_matches_total (suppliers : dict supplier_data) :
  Forall (fun d => 0 <= issues d) (values suppliers) ->
  (suppliers_with_issues suppliers = [] <-> issue_total suppliers = 0)
  /\ issue_total (suppliers_with_issues suppliers) = issue_total suppliers.
Proof.
  unfold suppliers_with_issues, issue_total, values.
  induction suppliers as [|[k d] rest IH]; intros F.
  - split; [split; reflexivity|reflexivity].
  - cbn [map snd] in F. inversion F as [|x l P F' Eq]; subst.
    destruct (IH F') as [[I1 I2] I3].
    assert (NN : 0 <= fold_right Z.add 0 (map issues (map snd rest))).
    { clear -F'. induction F' as [|x l Px _ IHF]; cbn [map fold_right]; lia. }
    cbn [filter snd]. destruct (issues d >? 0) eqn:G.
    + rewrite Z.gtb_ltb in G. apply Z.ltb_lt in G.
      cbn [map snd fold_right]. rewrite I3.
      split; [split; [discriminate | lia] | reflexivity].
    + rewrite Z.gtb_ltb in G. apply Z.ltb_ge in G.
      cbn [map snd fold_right].
      split; [split; [intros E; specialize (I1 E); lia
                     |intros E; apply I2; lia]
             |lia].
Qed.

Lemma issues_panel_matches_total_witness :
  Forall (fun d => 0 <= issues d)
    (values [("Thames Drainage Specialists", mk_supplier "Critical" 89.5 3);
             ("Network Operations", mk_supplier "Medium" 0 0)])
  /\ (suppliers_with_issues
        [("Thames Drainage Specialists", mk_supplier "Critical" 89.5 3);
         ("Network Operations", mk_supplier "Medium" 0 0)] = []
      <-> issue_total
            [("Thames Drainage Specialists", mk_supplier "Critical" 89.5 3);
             ("Network Operations", mk_supplier "Medium" 0 0)] = 0)
  /\ issue_total
       (suppliers_with_issues
          [("Thames Drainage Specialists", mk_supplier "Critical" 89.5 3);
           ("Network Operations", mk_supplier "Medium" 0 0)])
     = issue_total
         [("Thames Drainage Specialists", mk_supplier "Critical" 89.5 3);
          ("Network Operations", mk_supplier "Medium" 0 0)].
Proof.
  assert (F : Forall (fun d => 0 <= issues d)
                (values [("Thames Drainage Specialists",
                          mk_supplier "Critical" 89.5 3);
                         ("Network Operations", mk_supplier "Medium" 0 0)])).
  { repeat constructor; simpl; lia. }
  split; [exact F|].
  exact (issues_panel_matches_total _ F).
Defined.

(** X9: in the tier-2 view, a supplier has a drill-down button that moves
    the session exactly when a click on its node moves the session, and
    both lead to the same state. *)
Theorem tier2_button_where_click_drills
    (H : dict tier1_data) (T3 : dict (dict supplier_data))
    (s s' : nav_state) (n : string) :
  network_view_tier s = 2 ->
  (tier2_button H T3 s n = Ok (s', Rerun)
   <-> node_click H T3 s n = Ok (s', Rerun)).
Proof.
  destruct s as [t s1 s2]; simpl. intros ->.
  unfold tier2_button, node_click, tier3_available; cbn.
  destruct s1 as [p|]; cbn; [|tauto].
  destruct (negb (String.eqb p "")); [|tauto].
  destruct (getitem H p) as [t1|]; [|tauto].
  rewrite mem_filter.
  destruct (get (tier2 t1) n) as [d|] eqn:G.
  - assert (M : mem n (keys (tier2 t1)) = true)
      by (apply (contains_get (tier2 t1) n); now exists d).
    rewrite M. cbn [andb]. destruct (contains n T3); [tauto|].
    split; discriminate.
  - apply get_none_contains in G. unfold contains in G. rewrite G.
    cbn [andb]. tauto.
Qed.

Lemma tier2_button_where_click_drills_witness :
  network_view_tier (mk_nav 2 (Some "Balfour Beatty Water") None) = 2
  /\ (tier2_button supplier_hierarchy tier3_data
        (mk_nav 2 (Some "Balfour Beatty Water") None) "Network Operations"
      = Ok (mk_nav 3 (Some "Balfour Beatty Water")
                   (Some "Network Operations"), Rerun)
      <-> node_click supplier_hierarchy tier3_data
            (mk_nav 2 (Some "Balfour Beatty Water") None)
            "Network Operations"
          = Ok (mk_nav 3 (Some "Balfour Beatty Water")
                       (Some "Network Operations"), Rerun)).
Proof.
  split; [reflexivity|].
  apply (tier2_button_where_click_drills supplier_hierarchy tier3_data
           (mk_nav 2 (Some "Balfour Beatty Water") None)
           (mk_nav 3 (Some "Balfour Beatty Water")
                   (Some "Network Operations"))
           "Network Operations").
  reflexivity.
Defined.

(** X10: no interaction other than Reset changes the tier by more than
    one: Back goes up at most one tier, a button or a click goes down at
    most one. *)
Theorem no_tier_is_skipped
    (H : dict tier1_data) (T3 : dict (dict supplier_data))
    (s s' : nav_state) (e : event) (o : outcome) :
  e <> ResetButton ->
  handle H T3 s e = Ok (s', o) ->
  -1 <= network_view_tier s' - network_view_tier s <= 1.
Proof.
  intros NR. destruct s as [t s1 s2].
  destruct e as [| |supplier|supplier|clicked]; simpl.
  - unfold back_button; simpl.
    destruct (t >? 1); [|intros [= <- _]; cbn [network_view_tier]; lia].
    destruct (t =? 3) eqn:E3;
      [apply Z.eqb_eq in E3; intros [= <- _]; cbn [network_view_tier]; lia|].
    destruct (t =? 2) eqn:E2;
      [apply Z.eqb_eq in E2|]; intros [= <- _]; cbn [network_view_tier]; lia.
  - contradiction.
  - unfold tier1_button; simpl.
    destruct (t =? 1) eqn:E1; simpl; [|intros [= <- _]; cbn [network_view_tier]; lia].
    apply Z.eqb_eq in E1.
    destruct (mem supplier (keys H)); intros [= <- _]; cbn [network_view_tier]; lia.
  - unfold tier2_button; simpl.
    destruct (t =? 2) eqn:E2; simpl; [|intros [= <- _]; cbn [network_view_tier]; lia].
    apply Z.eqb_eq in E2.
    destruct s1 as [p|]; simpl; [|intros [= <- _]; cbn [network_view_tier]; lia].
    destruct (negb (String.eqb p "")); [|intros [= <- _]; cbn [network_view_tier]; lia].
    destruct (getitem H p) as [t1|]; [|discriminate].
    destruct (mem supplier (tier3_available T3 (tier2 t1)));
      intros [= <- _]; cbn [network_view_tier]; lia.
  - intros E.
    destruct (node_click_tier H T3 _ _ _ _ E) as [T | T];
      cbn [network_view_tier] in T; lia.
Qed.

Lemma no_tier_is_skipped_witness :
  BackButton <> ResetButton
  /\ handle supplier_hierarchy tier3_data
       (mk_nav 2 (Some "MACE Group") None) BackButton
     = Ok (mk_nav 1 None None, Rerun)
  /\ -1 <= 1 - 2 <= 1.
Proof.
  split; [discriminate|]. split; [reflexivity|].
  apply (no_tier_is_skipped supplier_hierarchy tier3_data
           (mk_nav 2 (Some "MACE Group") None) (mk_nav 1 None None)
           BackButton Rerun); [discriminate | reflexivity].
Defined.

End NavigatorFacts.

(** ** Cross-chart filter: further properties *)

Module ChartFilterFacts.
Import PyDict ChartFilter ChartFilterSpec.

Lemma len_nonneg (df : DataFrame) : 0 <= len df.
Proof. unfold len. lia. Qed.

(** The rows of a filter result are rows of the input: there are at most
    as many. *)
Lemma apply_len (st : session) (df out : DataFrame)
    (d : option string) (v : scalar) :
  apply_cross_chart_filter st df d v = Ok out -> len out <= len df.
Proof.
  destruct (negb (filter_active st) || negb (truthy_name d)
            || negb (truthy v)) eqn:G.
  - rewrite (guard_returns_input _ _ _ _ G). intros [= <-]. lia.
  - destruct d as [ft|].
    2:{ simpl in G. rewrite orb_true_r in G. discriminate. }
    rewrite (past_guard _ _ _ _ G).
    destruct (mem ft recognized_dimensions); cbn [andb];
      [|intros [= <-]; lia].
    destruct (mem ft (columns df)) eqn:M; [|intros [= <-]; lia].
    rewrite (select_eq_rows _ _ _ M). intros [= <-].
    unfold len; cbn [rows]. apply inj_le, filter_shorter.
Qed.

(** X11: whenever the summary is returned, its contract count lies
    between 0 and [len(df)], its ['filtered'] entry is the session's
    filter-active flag, and without an active filter the count is
    [len(df)]. *)
Theorem summary_count_is_bounded
    (st : session) (df : DataFrame) (r : stats) :
  get_filtered_summary_stats st df = Ok r ->
  0 <= contracts r <= len df
  /\ filtered r = filter_active st
  /\ (filter_active st = false -> contracts r = len df).
Proof.
  unfold get_filtered_summary_stats.
  destruct (filter_active st) eqn:A.
  - destruct (apply_cross_chart_filter st df (filter_type st)
                (filter_value st)) as [out|] eqn:E; [|discriminate].
    destruct (total_value_m out); [|discriminate].
    intros [= <-]. cbn. pose proof (apply_len _ _ _ _ _ E).
    pose proof (len_nonneg out). repeat split; try lia; discriminate.
  - destruct (total_value_m df); [|discriminate].
    intros [= <-]. cbn. pose proof (len_nonneg df). repeat split; lia.
Qed.

Lemma summary_count_is_bounded_witness :
  get_filtered_summary_stats (filter_on "risk_level" (Str "Low")) pipeline
  = Ok (mk_stats 1 ((1000000 + 0) / 1000000) true)
  /\ 0 <= 1 <= len pipeline
  /\ true = filter_active (filter_on "risk_level" (Str "Low"))
  /\ (filter_active (filter_on "risk_level" (Str "Low")) = false ->
      1 = len pipeline).
Proof.
  split; [reflexivity|].
  apply (summary_count_is_bounded (filter_on "risk_level" (Str "Low"))
           pipeline (mk_stats 1 ((1000000 + 0) / 1000000) true)).
  reflexivity.
Defined.

(** X12: the contract count of the summary is the number of rows of the
    table the charts are drawn from, the one [create_filterable_chart]
    obtains from the session's filter. *)
Theorem summary_counts_the_charted_rows
    (st : session) (df : DataFrame) (r : stats) :
  get_filtered_summary_stats st df = Ok r ->
  exists charted,
    apply_cross_chart_filter st df (filter_type st) (filter_value st)
    = Ok charted
    /\ contracts r = len charted.
Proof.
  unfold get_filtered_summary_stats.
  destruct (filter_active st) eqn:A.
  - destruct (apply_cross_chart_filter st df (filter_type st)
                (filter_value st)) as [out|]; [|discriminate].
    destruct (total_value_m out); [|discriminate].
    intros [= <-]. now exists out.
  - destruct (total_value_m df); [|discriminate].
    intros [= <-]. exists df. split; [|reflexivity].
    apply guard_returns_input. now rewrite A.
Qed.

Lemma summary_counts_the_charted_rows_witness :
  get_filtered_summary_stats (filter_on "risk_level" (Str "High")) pipeline
  = Ok (mk_stats 2 ((2500000 + (500000 + 0)) / 1000000) true)
  /\ exists charted,
       apply_cross_chart_filter (filter_on "risk_level" (Str "High"))
         pipeline (Some "risk_level") (Str "High") = Ok charted
       /\ 2 = len charted.
Proof.
  split; [reflexivity|].
  apply (summary_counts_the_charted_rows
           (filter_on "risk_level" (Str "High")) pipeline
           (mk_stats 2 ((2500000 + (500000 + 0)) / 1000000) true)).
  reflexivity.
Defined.

(** X13: after "Reset All Filters" the filter returns every table
    unchanged whatever dimension and value it is called with, and the
    summary is the one of a session that never had a filter. *)
Theorem clear_all_filters_restores_unfiltered
    (st st0 : session) (df : DataFrame) (d : option string) (v : scalar) :
  filter_active st0 = false ->
  apply_cross_chart_filter (clear_all_filters st) df d v = Ok df
  /\ get_filtered_summary_stats (clear_all_filters st) df
     = get_filtered_summary_stats st0 df.
Proof.
  intros A0. split.
  - now apply guard_returns_input.
  - unfold get_filtered_summary_stats. now rewrite A0.
Qed.

Lemma clear_all_filters_restores_unfiltered_witness :
  filter_active no_filter = false
  /\ apply_cross_chart_filter
       (clear_all_filters (filter_on "risk_level" (Str "High"))) pipeline
       (Some "risk_level") (Str "High") = Ok pipeline
  /\ get_filtered_summary_stats
       (clear_all_filters (filter_on "risk_level" (Str "High"))) pipeline
     = get_filtered_summary_stats no_filter pipeline.
Proof.
  split; [reflexivity|].
  apply (clear_all_filters_restores_unfiltered
           (filter_on "risk_level" (Str "High")) no_filter pipeline
           (Some "risk_level") (Str "High")).
  reflexivity.
Defined.

Lemma button_keeps_selections
    (st : session) (df : DataFrame) (c : option string) (v : scalar) :
  selected_contracts (apply_filter_button st df c v) = selected_contracts st
  /\ selected_suppliers (apply_filter_button st df c v)
     = selected_suppliers st
  /\ selected_categories (apply_filter_button st df c v)
     = selected_categories st.
Proof.
  unfold apply_filter_button. destruct c as [c|]; [|auto].
  destruct (truthy_name (Some c) && mem c (columns df)); [|auto].
  destruct (cell_eq v (Str "All")); auto.
Qed.

Lemma button_sets_filter
    (st : session) (df : DataFrame) (c : string) (v : scalar) :
  c <> "" ->
  mem c (columns df) = true ->
  cell_eq v (Str "All") = false ->
  apply_filter_button st df (Some c) v
  = mk_session true (Some c) v (selected_contracts st)
      (selected_suppliers st) (selected_categories st).
Proof.
  intros N M A. unfold apply_filter_button. rewrite M, A. simpl.
  destruct (String.eqb_spec c ""); [contradiction|reflexivity].
Qed.

(** X14: "Apply Filter" replaces the filter of the session: pressing it
    for column [c2] and an entry [v2] other than 'All' gives the same
    session whether or not a filter had been applied before, with [c2] and
    [v2] as the one active filter. *)
Theorem apply_filter_button_replaces_filter
    (st : session) (df : DataFrame)
    (c1 : option string) (v1 : scalar) (c2 : string) (v2 : scalar) :
  c2 <> "" ->
  mem c2 (columns df) = true ->
  cell_eq v2 (Str "All") = false ->
  apply_filter_button (apply_filter_button st df c1 v1) df (Some c2) v2
  = apply_filter_button st df (Some c2) v2
  /\ filter_active (apply_filter_button st df (Some c2) v2) = true
  /\ filter_type (apply_filter_button st df (Some c2) v2) = Some c2
  /\ filter_value (apply_filter_button st df (Some c2) v2) = v2.
Proof.
  intros N M A.
  rewrite !(button_sets_filter _ df c2 v2 N M A).
  destruct (button_keeps_selections st df c1 v1) as (-> & -> & ->).
  repeat split.
Qed.

Lemma apply_filter_button_replaces_filter_witness :
  "risk_level" <> ""
  /\ mem "risk_level" (columns pipeline) = true
  /\ cell_eq (Str "Low") (Str "All") = false
  /\ apply_filter_button
       (apply_filter_button no_filter pipeline (Some "package_name")
          (Str "Pump Upgrade"))
       pipeline (Some "risk_level") (Str "Low")
     = apply_filter_button no_filter pipeline (Some "risk_level") (Str "Low")
  /\ filter_active
       (apply_filter_button no_filter pipeline (Some "risk_level")
          (Str "Low")) = true
  /\ filter_type
       (apply_filter_button no_filter pipeline (Some "risk_level")
          (Str "Low")) = Some "risk_level"
  /\ filter_value
       (apply_filter_button no_filter pipeline (Some "risk_level")
          (Str "Low")) = Str "Low".
Proof.
  split; [discriminate|]. split; [reflexivity|]. split; [reflexivity|].
  apply (apply_filter_button_replaces_filter no_filter pipeline
           (Some "package_name") (Str "Pump Upgrade")
           "risk_level" (Str "Low"));
    [discriminate | reflexivity | reflexivity].
Defined.

(** X15: a filter applied from a chart whose column is not one of the
    seven recognized names marks the session as filtered without
    filtering anything: the summary has the totals of the whole table and
    ['filtered'] is True. *)
Theorem unrecognized_column_flags_without_filtering
    (st : session) (df : DataFrame) (c : string) (v : scalar) :
  c <> "" ->
  mem c (columns df) = true ->
  mem c recognized_dimensions = false ->
  cell_eq v (Str "All") = false ->
  get_filtered_summary_stats (apply_filter_button st df (Some c) v) df
  = match total_value_m df with
    | Ok total_value => Ok (mk_stats (len df) total_value true)
    | Raise e => Raise e
    end.
Proof.
  intros N M U A.
  rewrite (button_sets_filter _ df c v N M A).
  unfold get_filtered_summary_stats.
  cbn [filter_active filter_type filter_value].
  rewrite unrecognized_dimension_aux by (now left). reflexivity.
Qed.

Lemma unrecognized_column_flags_without_filtering_witness :
  "package_name" <> ""
  /\ mem "package_name" (columns pipeline) = true
  /\ mem "package_name" recognized_dimensions = false
  /\ cell_eq (Str "Pump Upgrade") (Str "All") = false
  /\ get_filtered_summary_stats
       (apply_filter_button no_filter pipeline (Some "package_name")
          (Str "Pump Upgrade")) pipeline
     = match total_value_m pipeline with
       | Ok total_value => Ok (mk_stats (len pipeline) total_value true)
       | Raise e => Raise e
       end.
Proof.
  split; [discriminate|]. split; [reflexivity|]. split; [reflexivity|].
  split; [reflexivity|].
  apply (unrecognized_column_flags_without_filtering no_filter pipeline
           "package_name" (Str "Pump Upgrade"));
    [discriminate | reflexivity | reflexivity | reflexivity].
Defined.

(** X16: with the filter active, a recognized dimension that is a column
    and a truthy value that some row of the table carries in that column,
    the filtered table is not empty: it contains that row. *)
Theorem value_of_a_row_keeps_that_row
    (st : session) (df : DataFrame) (d : string) (v : scalar) (r : row) :
  filter_active st = true ->
  mem d recognized_dimensions = true ->
  mem d (columns df) = true ->
  truthy v = true ->
  In r (rows df) ->
  row_matches df d v r = true ->
  exists out,
    apply_cross_chart_filter st df (Some d) v = Ok out
    /\ In r (rows out)
    /\ 1 <= len out.
Proof.
  intros A R C T I Mt.
  assert (G : negb (filter_active st) || negb (truthy_name (Some d))
              || negb (truthy v) = false)
    by (rewrite A, T, (recognized_nonempty d R); reflexivity).
  rewrite (past_guard _ _ _ _ G), R, C, (select_eq_rows _ _ _ C).
  cbn [andb]. eexists. split; [reflexivity|]. cbn [rows].
  assert (I' : In r (filter (row_matches df d v) (rows df)))
    by (apply filter_In; now split).
  split; [exact I'|].
  unfold len; cbn [rows].
  destruct (filter (row_matches df d v) (rows df)); [contradiction|].
  cbn [List.length]. lia.
Qed.

Lemma value_of_a_row_keeps_that_row_witness :
  filter_active (filter_on "risk_level" (Str "Low")) = true
  /\ In (mk_row 1 [Str "Sewer Relining"; Str "Low"; Num 1000000])
        (rows pipeline)
  /\ exists out,
       apply_cross_chart_filter (filter_on "risk_level" (Str "Low"))
         pipeline (Some "risk_level") (Str "Low") = Ok out
       /\ In (mk_row 1 [Str "Sewer Relining"; Str "Low"; Num 1000000])
             (rows out)
       /\ 1 <= len out.
Proof.
  split; [reflexivity|].
  split; [right; left; reflexivity|].
  apply (value_of_a_row_keeps_that_row (filter_on "risk_level" (Str "Low"))
           pipeline "risk_level" (Str "Low")
           (mk_row 1 [Str "Sewer Relining"; Str "Low"; Num 1000000]));
    [reflexivity | reflexivity | reflexivity | reflexivity
    | right; left; reflexivity | reflexivity].
Defined.

End ChartFilterFacts.

(** ** Selection filters and RAG status *)

Module SelectionFacts.
Import PyDict ChartFilter ChartFilterSpec Selections.

(** *** Lists *)

Lemma filter_and {A : Type} (f g : A -> bool) (l : list A) :
  filter g (filter f l) = filter (fun x => f x && g x) l.
Proof.
  induction l as [|x l IH]; [reflexivity|]. cbn [filter].
  destruct (f x); cbn [filter andb]; [destruct (g x)|]; now rewrite IH.
Qed.

Lemma filter_drops_iff {A : Type} (f : A -> bool) (l : list A) :
  (List.length (filter f l) < List.length l)%nat
  <-> exists x, In x l /\ f x = false.
Proof.
  induction l as [|x l IH]; cbn [filter List.length].
  - split; [lia | intros (x & [] & _)].
  - pose proof (filter_shorter f l) as Sh.
    destruct (f x) eqn:Fx; cbn [List.length].
    + split.
      * intros L. destruct (proj1 IH ltac:(lia)) as (y & I & Fy).
        exists y. split; [now right|exact Fy].
      * intros (y & [<- | I] & Fy); [congruence|].
        assert (List.length (filter f l) < List.length l)%nat
          by (apply IH; now exists y).
        lia.
    + split; [|lia]. intros _. exists x. split; [now left|exact Fx].
Qed.

(** *** One select box *)

(** The select box lets a row through: it is on 'All', or the row has the
    chosen entry in the column. *)
Definition passes (df : DataFrame) (name : string) (flt : scalar) (r : row)
  : bool :=
  implb (not_all flt) (row_matches df name flt r).

(** The select box can be applied: it is on 'All', or its column exists. *)
Definition usable (df : DataFrame) (name : string) (flt : scalar) : bool :=
  implb (not_all flt) (mem name (columns df)).

Lemma select_box (df : DataFrame) (name : string) (flt : scalar) :
  (if not_all flt then select_eq df name flt else Ok df)
  = if usable df name flt
    then Ok (mk_df (columns df) (filter (passes df name flt) (rows df)))
    else Raise (KeyError name).
Proof.
  unfold usable, passes. destruct (not_all flt); cbn [implb].
  - destruct (mem name (columns df)) eqn:M.
    + now apply select_eq_rows.
    + unfold select_eq. now rewrite (column_pos_mem _ _ M).
  - rewrite filter_keeps_all by (now apply Forall_forall).
    now destruct df.
Qed.

(** The same on a selection of the rows of a table. *)
Lemma select_box_on (cols : list string) (rws l : list row)
    (name : string) (flt : scalar) :
  (if not_all flt then select_eq (mk_df cols l) name flt
   else Ok (mk_df cols l))
  = if usable (mk_df cols rws) name flt
    then Ok (mk_df cols (filter (passes (mk_df cols rws) name flt) l))
    else Raise (KeyError name).
Proof. exact (select_box (mk_df cols l) name flt). Qed.

(** *** [apply_network_filters] *)

Definition network_row_passes (df : DataFrame)
    (risk_filter performance_filter strategic_filter : scalar) (r : row)
  : bool :=
  passes df "risk_category" risk_filter r
  && passes df "performance_category" performance_filter r
  && passes df "strategic_importance" strategic_filter r.

Definition network_filters_usable (df : DataFrame)
    (risk_filter performance_filter strategic_filter : scalar) : bool :=
  usable df "risk_category" risk_filter
  && usable df "performance_category" performance_filter
  && usable df "strategic_importance" strategic_filter.

Lemma apply_network_filters_cases (df : DataFrame) (rf pf sf : scalar) :
  apply_network_filters df rf pf sf
  = if usable df "risk_category" rf then
      if usable df "performance_category" pf then
        if usable df "strategic_importance" sf then
          Ok (mk_df (columns df)
                (filter (network_row_passes df rf pf sf) (rows df)))
        else Raise (KeyError "strategic_importance")
      else Raise (KeyError "performance_category")
    else Raise (KeyError "risk_category").
Proof.
  destruct df as [cols rws].
  unfold apply_network_filters. cbv zeta.
  rewrite (select_box_on cols rws rws).
  destruct (usable (mk_df cols rws) "risk_category" rf); [|reflexivity].
  rewrite (select_box_on cols rws).
  destruct (usable (mk_df cols rws) "performance_category" pf);
    [|reflexivity].
  rewrite (select_box_on cols rws).
  destruct (usable (mk_df cols rws) "strategic_importance" sf);
    [|reflexivity].
  cbn [columns rows]. rewrite !filter_and. do 2 f_equal.
  apply filter_ext. intros r. unfold network_row_passes.
  now rewrite ?andb_assoc.
Qed.

(** A small supplier table of the network tab. *)
Definition suppliers : DataFrame :=
  mk_df ["name"; "risk_category"; "performance_category";
         "strategic_importance"]
        [mk_row 0 [Str "Alpha Civils"; Str "High"; Str "Good";
                   Str "Critical"];
         mk_row 1 [Str "Beta Pumps"; Str "Low"; Str "Excellent";
                   Str "Standard"];
         mk_row 2 [Str "Gamma Pipes"; Str "High"; Str "Excellent";
                   Str "Important"]].

(** X17: when [apply_network_filters] returns, the result has the columns
    of the input and exactly those of its rows, in order, that pass every
    select box (a box passes a row when it is on 'All' or the row carries
    the chosen entry in the box's column); so it has at most as many
    rows. *)
Theorem network_filters_keep_matching_rows
    (df out : DataFrame) (rf pf sf : scalar) :
  apply_network_filters df rf pf sf = Ok out ->
  columns out = columns df
  /\ rows out = filter (network_row_passes df rf pf sf) (rows df)
  /\ len out <= len df.
Proof.
  rewrite apply_network_filters_cases.
  destruct (usable df "risk_category" rf); [|discriminate].
  destruct (usable df "performance_category" pf); [|discriminate].
  destruct (usable df "strategic_importance" sf); [|discriminate].
  intros [= <-]. repeat split.
  unfold len; cbn [rows]. apply inj_le, filter_shorter.
Qed.

Lemma network_filters_keep_matching_rows_witness :
  apply_network_filters suppliers (Str "High") (Str "All") (Str "Important")
  = Ok (mk_df (columns suppliers)
          [mk_row 2 [Str "Gamma Pipes"; Str "High"; Str "Excellent";
                     Str "Important"]])
  /\ columns suppliers = columns suppliers
  /\ [mk_row 2 [Str "Gamma Pipes"; Str "High"; Str "Excellent";
                Str "Important"]]
     = filter (network_row_passes suppliers (Str "High") (Str "All")
                 (Str "Important")) (rows suppliers)
  /\ 1 <= len suppliers.
Proof.
  split; [reflexivity|].
  apply (network_filters_keep_matching_rows suppliers
           (mk_df (columns suppliers)
              [mk_row 2 [Str "Gamma Pipes"; Str "High"; Str "Excellent";
                         Str "Important"]])
           (Str "High") (Str "All") (Str "Important")).
  reflexivity.
Defined.

(** X18: [apply_network_filters] returns a table exactly when the column
    of every select box that is not on 'All' exists; a box on 'All' never
    touches its column, so with all three on 'All' any table is returned
    as it is. *)
Theorem network_filters_need_their_columns
    (df : DataFrame) (rf pf sf : scalar) :
  ((exists out, apply_network_filters df rf pf sf = Ok out)
   <-> network_filters_usable df rf pf sf = true)
  /\ apply_network_filters df (Str "All") (Str "All") (Str "All") = Ok df.
Proof.
  split.
  - rewrite apply_network_filters_cases. unfold network_filters_usable.
    destruct (usable df "risk_category" rf); cbn [andb];
      [|split; [intros [out E]|]; discriminate].
    destruct (usable df "performance_category" pf); cbn [andb];
      [|split; [intros [out E]|]; discriminate].
    destruct (usable df "strategic_importance" sf);
      [|split; [intros [out E]|]; discriminate].
    split; [reflexivity|]. intros _. eexists. reflexivity.
  - now destruct df.
Qed.

(** X19: [apply_network_filters] is idempotent: applying the same three
    select boxes to its result returns that result. *)
Theorem network_filters_idempotent
    (df out : DataFrame) (rf pf sf : scalar) :
  apply_network_filters df rf pf sf = Ok out ->
  apply_network_filters out rf pf sf = Ok out.
Proof.
  destruct df as [cols rws].
  rewrite !apply_network_filters_cases.
  destruct (usable (mk_df cols rws) "risk_category" rf) eqn:U1;
    [|discriminate].
  destruct (usable (mk_df cols rws) "performance_category" pf) eqn:U2;
    [|discriminate].
  destruct (usable (mk_df cols rws) "strategic_importance" sf) eqn:U3;
    [|discriminate].
  intros [= <-]. cbn [columns rows].
  change (usable (mk_df cols ?l) ?n ?f) with (usable (mk_df cols rws) n f).
  rewrite U1, U2, U3. do 2 f_equal.
  change (network_row_passes (mk_df cols ?l) rf pf sf)
    with (network_row_passes (mk_df cols rws) rf pf sf).
  apply filter_twice.
Qed.

Lemma network_filters_idempotent_witness :
  apply_network_filters suppliers (Str "High") (Str "All") (Str "All")
  = Ok (mk_df (columns suppliers)
          [mk_row 0 [Str "Alpha Civils"; Str "High"; Str "Good";
                     Str "Critical"];
           mk_row 2 [Str "Gamma Pipes"; Str "High"; Str "Excellent";
                     Str "Important"]])
  /\ apply_network_filters
       (mk_df (columns suppliers)
          [mk_row 0 [Str "Alpha Civils"; Str "High"; Str "Good";
                     Str "Critical"];
           mk_row 2 [Str "Gamma Pipes"; Str "High"; Str "Excellent";
                     Str "Important"]])
       (Str "High") (Str "All") (Str "All")
     = Ok (mk_df (columns suppliers)
             [mk_row 0 [Str "Alpha Civils"; Str "High"; Str "Good";
                        Str "Critical"];
              mk_row 2 [Str "Gamma Pipes"; Str "High"; Str "Excellent";
                        Str "Important"]]).
Proof.
  split; [reflexivity|].
  apply (network_filters_idempotent suppliers _
           (Str "High") (Str "All") (Str "All")).
  reflexivity.
Defined.

(** X20: the "Showing n of m suppliers" banner of the network tab appears
    exactly when some row of the table fails a select box. *)
Theorem filter_banner_iff_row_dropped
    (df out : DataFrame) (rf pf sf : scalar) :
  apply_network_filters df rf pf sf = Ok out ->
  (shows_filter_banner df out = true
   <-> exists r, In r (rows df)
                 /\ network_row_passes df rf pf sf r = false).
Proof.
  rewrite apply_network_filters_cases.
  destruct (usable df "risk_category" rf); [|discriminate].
  destruct (usable df "performance_category" pf); [|discriminate].
  destruct (usable df "strategic_importance" sf); [|discriminate].
  intros [= <-]. unfold shows_filter_banner, len; cbn [rows].
  rewrite Z.ltb_lt, <- Nat2Z.inj_lt. apply filter_drops_iff.
Qed.

Lemma filter_banner_iff_row_dropped_witness :
  apply_network_filters suppliers (Str "Low") (Str "All") (Str "All")
  = Ok (mk_df (columns suppliers)
          [mk_row 1 [Str "Beta Pumps"; Str "Low"; Str "Excellent";
                     Str "Standard"]])
  /\ (shows_filter_banner suppliers
        (mk_df (columns suppliers)
           [mk_row 1 [Str "Beta Pumps"; Str "Low"; Str "Excellent";
                      Str "Standard"]]) = true
      <-> exists r, In r (rows suppliers)
                    /\ network_row_passes suppliers (Str "Low") (Str "All")
                         (Str "All") r = false).
Proof.
  split; [reflexivity|].
  apply (filter_banner_iff_row_dropped suppliers _
           (Str "Low") (Str "All") (Str "All")).
  reflexivity.
Defined.

(** *** The select boxes of the project delivery tab *)

Definition delivery_row_passes (df : DataFrame)
    (rag_filter category_filter stage_filter risk_filter : scalar) (r : row)
  : bool :=
  passes df "rag_status" rag_filter r
  && passes df "procurement_category" category_filter r
  && passes df "current_stage" stage_filter r
  && passes df "risk_level" risk_filter r.

Lemma apply_selectbox_filters_cases (df : DataFrame) (gf cf tf kf : scalar) :
  apply_selectbox_filters df gf cf tf kf
  = if usable df "rag_status" gf then
      if usable df "procurement_category" cf then
        if usable df "current_stage" tf then
          if usable df "risk_level" kf then
            Ok (mk_df (columns df)
                  (filter (delivery_row_passes df gf cf tf kf) (rows df)))
          else Raise (KeyError "risk_level")
        else Raise (KeyError "current_stage")
      else Raise (KeyError "procurement_category")
    else Raise (KeyError "rag_status").
Proof.
  destruct df as [cols rws].
  unfold apply_selectbox_filters. cbv zeta.
  rewrite (select_box_on cols rws rws).
  destruct (usable (mk_df cols rws) "rag_status" gf); [|reflexivity].
  rewrite (select_box_on cols rws).
  destruct (usable (mk_df cols rws) "procurement_category" cf);
    [|reflexivity].
  rewrite (select_box_on cols rws).
  destruct (usable (mk_df cols rws) "current_stage" tf); [|reflexivity].
  rewrite (select_box_on cols rws).
  destruct (usable (mk_df cols rws) "risk_level" kf); [|reflexivity].
  cbn [columns rows]. rewrite !filter_and. do 2 f_equal.
  apply filter_ext. intros r. unfold delivery_row_passes.
  now rewrite ?andb_assoc.
Qed.

Lemma not_all_count (f : scalar) : 0 <= (if not_all f then 1 else 0) <= 1.
Proof. destruct (not_all f); lia. Qed.

(** X21: the four select boxes of the project delivery tab act as one
    conjunction: the working table has the columns of the input and
    exactly the rows that pass all four boxes; the number of boxes in use
    is between 0 and 4, and when it is 0 the working table is the input. *)
Theorem selectbox_filters_are_a_conjunction
    (df out : DataFrame) (gf cf tf kf : scalar) :
  apply_selectbox_filters df gf cf tf kf = Ok out ->
  columns out = columns df
  /\ rows out = filter (delivery_row_passes df gf cf tf kf) (rows df)
  /\ 0 <= filter_count gf cf tf kf <= 4
  /\ (filter_count gf cf tf kf = 0 -> out = df).
Proof.
  intros E.
  assert (C : 0 <= filter_count gf cf tf kf <= 4).
  { unfold filter_count. cbn [map fold_right].
    pose proof (not_all_count gf). pose proof (not_all_count cf).
    pose proof (not_all_count tf). pose proof (not_all_count kf). lia. }
  assert (Z0 : filter_count gf cf tf kf = 0 -> out = df).
  { unfold filter_count. cbn [map fold_right]. intros S.
    pose proof (not_all_count gf). pose proof (not_all_count cf).
    pose proof (not_all_count tf). pose proof (not_all_count kf).
    unfold apply_selectbox_filters in E.
    destruct (not_all gf); [lia|]. destruct (not_all cf); [lia|].
    destruct (not_all tf); [lia|]. destruct (not_all kf); [lia|].
    now injection E as <-. }
  rewrite apply_selectbox_filters_cases in E.
  destruct (usable df "rag_status" gf); [|discriminate].
  destruct (usable df "procurement_category" cf); [|discriminate].
  destruct (usable df "current_stage" tf); [|discriminate].
  destruct (usable df "risk_level" kf); [|discriminate].
  injection E as E. rewrite <- E at 1 2. cbn [columns rows].
  repeat split; try lia. exact Z0.
Qed.

Lemma selectbox_filters_are_a_conjunction_witness :
  apply_selectbox_filters pipeline (Str "All") (Str "All") (Str "All")
    (Str "High")
  = Ok (mk_df (columns pipeline)
          [mk_row 0 [Str "Mains Renewal"; Str "High"; Num 2500000];
           mk_row 2 [Str "Pump Upgrade"; Str "High"; Num 500000]])
  /\ columns pipeline = columns pipeline
  /\ [mk_row 0 [Str "Mains Renewal"; Str "High"; Num 2500000];
      mk_row 2 [Str "Pump Upgrade"; Str "High"; Num 500000]]
     = filter (delivery_row_passes pipeline (Str "All") (Str "All")
                 (Str "All") (Str "High")) (rows pipeline)
  /\ 0 <= filter_count (Str "All") (Str "All") (Str "All") (Str "High") <= 4
  /\ (filter_count (Str "All") (Str "All") (Str "All") (Str "High") = 0 ->
      mk_df (columns pipeline)
        [mk_row 0 [Str "Mains Renewal"; Str "High"; Num 2500000];
         mk_row 2 [Str "Pump Upgrade"; Str "High"; Num 500000]]
      = pipeline).
Proof.
  split; [reflexivity|].
  apply (selectbox_filters_are_a_conjunction pipeline
           (mk_df (columns pipeline)
              [mk_row 0 [Str "Mains Renewal"; Str "High"; Num 2500000];
               mk_row 2 [Str "Pump Upgrade"; Str "High"; Num 500000]])
           (Str "All") (Str "All") (Str "All") (Str "High")).
  reflexivity.
Defined.

(** *** RAG status and the delivered count *)

(** X22: on a table that has the [current_stage] and [risk_level]
    columns, [get_rag_status] returns Green, Amber or Red for every row;
    Red exactly for a High-risk row that is not at Contract or Award, and
    Amber only for a row at Evaluation or Tender Process that is not
    High-risk. *)
Theorem rag_status_classification (cols : list string) (r : row) :
  mem "current_stage" cols = true ->
  mem "risk_level" cols = true ->
  exists stage risk_level status,
    row_getitem cols r "current_stage" = Ok stage
    /\ row_getitem cols r "risk_level" = Ok risk_level
    /\ get_rag_status cols r = Ok status
    /\ (status = "Green" \/ status = "Amber" \/ status = "Red")
    /\ (status = "Red"
        <-> scalar_in stage ["Contract"; "Award"] = false
            /\ cell_eq risk_level (Str "High") = true)
    /\ (status = "Amber"
        -> scalar_in stage ["Evaluation"; "Tender Process"] = true
           /\ cell_eq risk_level (Str "High") = false).
Proof.
  intros [i Pi]%mem_column_pos [j Pj]%mem_column_pos.
  unfold get_rag_status, row_getitem. rewrite Pi, Pj.
  exists (cell r i), (cell r j).
  destruct (scalar_in (cell r i) ["Contract"; "Award"]) eqn:S1.
  - exists "Green". repeat split; auto; try discriminate.
    intros [? _]. discriminate.
  - destruct (cell_eq (cell r j) (Str "High")) eqn:S2.
    + exists "Red". repeat split; auto; discriminate.
    + destruct (scalar_in (cell r i) ["Evaluation"; "Tender Process"])
        eqn:S3.
      * exists "Amber". repeat split; auto; try discriminate.
        intros [_ ?]. discriminate.
      * exists "Green". repeat split; auto; try discriminate.
        intros [_ ?]. discriminate.
Qed.

Lemma rag_status_classification_witness :
  mem "current_stage" ["package_name"; "current_stage"; "risk_level"] = true
  /\ get_rag_status ["package_name"; "current_stage"; "risk_level"]
       (mk_row 0 [Str "Mains Renewal"; Str "Evaluation"; Str "High"])
     = Ok "Red"
  /\ exists stage risk_level status,
       row_getitem ["package_name"; "current_stage"; "risk_level"]
         (mk_row 0 [Str "Mains Renewal"; Str "Evaluation"; Str "High"])
         "current_stage" = Ok stage
       /\ row_getitem ["package_name"; "current_stage"; "risk_level"]
            (mk_row 0 [Str "Mains Renewal"; Str "Evaluation"; Str "High"])
            "risk_level" = Ok risk_level
       /\ get_rag_status ["package_name"; "current_stage"; "risk_level"]
            (mk_row 0 [Str "Mains Renewal"; Str "Evaluation"; Str "High"])
          = Ok status
       /\ (status = "Green" \/ status = "Amber" \/ status = "Red")
       /\ (status = "Red"
           <-> scalar_in stage ["Contract"; "Award"] = false
               /\ cell_eq risk_level (Str "High") = true)
       /\ (status = "Amber"
           -> scalar_in stage ["Evaluation"; "Tender Process"] = true
              /\ cell_eq risk_level (Str "High") = false).
Proof.
  split; [reflexivity|]. split; [reflexivity|].
  apply (rag_status_classification
           ["package_name"; "current_stage"; "risk_level"]
           (mk_row 0 [Str "Mains Renewal"; Str "Evaluation"; Str "High"]));
    reflexivity.
Defined.

(** X23: on a table without a [risk_level] column, [get_rag_status]
    still returns Green for a row at Contract or Award, whose risk level
    it never reads, and raises KeyError('risk_level') for every other
    row. *)
Theorem rag_status_without_risk_column
    (cols : list string) (r : row) (stage : scalar) :
  mem "risk_level" cols = false ->
  row_getitem cols r "current_stage" = Ok stage ->
  get_rag_status cols r
  = if scalar_in stage ["Contract"; "Award"]
    then Ok "Green"
    else Raise (KeyError "risk_level").
Proof.
  intros M S. unfold get_rag_status. rewrite S.
  destruct (scalar_in stage ["Contract"; "Award"]); [reflexivity|].
  unfold row_getitem. now rewrite (column_pos_mem _ _ M).
Qed.

Lemma rag_status_without_risk_column_witness :
  mem "risk_level" ["package_name"; "current_stage"] = false
  /\ get_rag_status ["package_name"; "current_stage"]
       (mk_row 0 [Str "Mains Renewal"; Str "Award"]) = Ok "Green"
  /\ get_rag_status ["package_name"; "current_stage"]
       (mk_row 1 [Str "Pump Upgrade"; Str "Evaluation"])
     = Raise (KeyError "risk_level").
Proof.
  split; [reflexivity|]. split.
  - apply (rag_status_without_risk_column ["package_name"; "current_stage"]
             (mk_row 0 [Str "Mains Renewal"; Str "Award"]) (Str "Award"));
      reflexivity.
  - reflexivity.
Defined.

Lemma select_isin_twice (df out : DataFrame) (name : string)
    (names : list string) :
  select_isin df name names = Ok out ->
  select_isin out name names = Ok out.
Proof.
  unfold select_isin.
  destruct (column_pos name (columns df)) as [i|] eqn:P; [|discriminate].
  intros [= <-]. cbn [columns rows]. rewrite P.
  now rewrite filter_twice.
Qed.

(** X24: the numerator of the "Contracts Delivered" metric does not
    depend on the filter: with the summary flagged as filtered or not, it
    is the number of rows of the whole table at Contract or Award (or the
    same KeyError when the table has no [current_stage] column). *)
Theorem contracts_delivered_ignores_filter
    (stats_filtered : bool) (df : DataFrame) :
  contracts_delivered stats_filtered df
  = match select_isin df "current_stage" ["Contract"; "Award"] with
    | Ok on_track => Ok (len on_track)
    | Raise e => Raise e
    end.
Proof.
  unfold contracts_delivered. destruct stats_filtered; cbn [negb];
    [|reflexivity].
  destruct (select_isin df "current_stage" ["Contract"; "Award"])
    as [out|e] eqn:E; [|reflexivity].
  now rewrite (select_isin_twice _ _ _ _ E).
Qed.

End SelectionFacts.
